(** * pg8000: the wire-protocol translation layer

    A shallow embedding of [pg8000/constants.py], [pg8000/tzutc.py],
    [pg8000/translate.py] and [pg8000/startup.py], with the properties of the
    translation layer stated and settled over it.

    The embedding follows the Python 3 branches of the code ([six.PY2] is
    false).  Python exceptions are values of [pyerr]; a call either raises or
    returns, which is the monad [result]. *)

From Stdlib Require Import ZArith List String Ascii Lia SpecFloat.
From stdpp Require Import gmap strings list pretty.

Open Scope Z_scope.

(** * The Python runtime the code relies on *)

Module Py.

(** ** Exceptions and results *)

(** The exceptions the modelled code can raise.  [NameError] and
    [AttributeError] carry the name that failed to resolve. *)
Inductive pyerr : Type :=
| NameError (name : string)
| AttributeError (name : string)
| TypeError
| ValueError
| OverflowError
| IndexError
| KeyError
| LookupError
| UnicodeError
| StructError
| ProgrammingError
| NotSupportedError
| ArrayContentEmptyError
| ArrayContentNotSupportedError.

Inductive result (A : Type) : Type :=
| Return (a : A)
| Raise (e : pyerr).

Arguments Return {A} a.
Arguments Raise {A} e.

Definition bind {A B : Type} (c : result A) (k : A -> result B) : result B :=
  match c with
  | Return a => k a
  | Raise e => Raise e
  end.

Definition raises {A : Type} (c : result A) : Prop :=
  exists e, c = Raise e.

Definition returns {A : Type} (c : result A) : Prop :=
  exists a, c = Return a.

Declare Scope py_scope.
Delimit Scope py_scope with py.
Notation "'let*' x ':=' c 'in' k" := (bind c (fun x => k))
  (at level 10, x pattern, c at level 100, k at level 200) : py_scope.
Open Scope py_scope.

(** ** Name resolution *)

(** A bare name in a function body that is neither a local nor a parameter is
    looked up among the module's globals and then the builtins; a miss raises
    [NameError].  [globals] is the module namespace and [builtins] the part of
    the builtin namespace the code mentions. *)
Definition builtins : list string :=
  ["int"; "str"; "bytes"; "bool"; "float"; "list"; "tuple"; "type"; "len";
   "range"; "map"; "zip"; "dict"; "iter"; "reversed"; "eval"; "print";
   "isinstance"; "issubclass"; "getattr"; "setattr"; "ord"; "object";
   "bytearray"; "KeyError"; "AttributeError"; "OverflowError"; "Exception";
   "None"; "True"; "False"]%string.

Definition name_in (name : string) (names : list string) : bool :=
  existsb (String.eqb name) names.

Definition load_global (globals : list string) (name : string) : result unit :=
  if name_in name globals || name_in name builtins then Return tt
  else Raise (NameError name).

(** ** Bytes and slices *)

(** A byte string is the list of its bytes, each an integer in [0, 255]. *)
Definition bytes := list Z.

Definition len {A : Type} (l : list A) : Z := Z.of_nat (length l).

(** [s[i]] for an integer index: negative indices count from the end, an
    index out of range raises [IndexError]. *)
Definition getitem {A : Type} (s : list A) (i : Z) : result A :=
  let i' := if i <? 0 then i + len s else i in
  if i' <? 0 then Raise IndexError
  else match nth_error s (Z.to_nat i') with
       | Some a => Return a
       | None => Raise IndexError
       end.

(** The bound adjustment of a slice [s[lo:hi]] with step 1: a negative bound
    counts from the end, and every bound is clamped into [0, len s]. *)
Definition slice_bound (n i : Z) : Z :=
  if i <? 0 then Z.max (i + n) 0 else Z.min i n.

Definition slice {A : Type} (s : list A) (lo hi : Z) : list A :=
  let lo' := slice_bound (len s) lo in
  let hi' := slice_bound (len s) hi in
  firstn (Z.to_nat (hi' - lo')) (skipn (Z.to_nat lo') s).

(** ** Text and its UTF-8 encoding *)

(** A text string ([str]) is the list of its code points. *)
Definition text := list Z.

Definition ord (c : ascii) : Z := Z.of_nat (nat_of_ascii c).

(** A string literal of the source, as text. *)
Definition u (s : string) : text := map ord (list_ascii_of_string s).

(** [str.encode('utf8')]; a surrogate code point raises. *)
Definition utf8_encode_char (c : Z) : result bytes :=
  if c <? 0 then Raise ValueError
  else if c <? 128 then Return [c]
  else if c <? 2048 then
    Return [Z.lor 192 (Z.shiftr c 6); Z.lor 128 (Z.land c 63)]
  else if (55296 <=? c) && (c <=? 57343) then Raise UnicodeError
  else if c <? 65536 then
    Return [Z.lor 224 (Z.shiftr c 12);
            Z.lor 128 (Z.land (Z.shiftr c 6) 63);
            Z.lor 128 (Z.land c 63)]
  else if c <? 1114112 then
    Return [Z.lor 240 (Z.shiftr c 18);
            Z.lor 128 (Z.land (Z.shiftr c 12) 63);
            Z.lor 128 (Z.land (Z.shiftr c 6) 63);
            Z.lor 128 (Z.land c 63)]
  else Raise ValueError.

Fixpoint utf8_encode (t : text) : result bytes :=
  match t with
  | [] => Return []
  | c :: t' =>
      let* b := utf8_encode_char c in
      let* bs := utf8_encode t' in
      Return (b ++ bs)
  end.

(** [bytes.decode('utf8')], strict: a byte sequence that is not the shortest
    encoding of a code point other than a surrogate raises. *)
Definition continuation (b : Z) : bool := (128 <=? b) && (b <=? 191).

Fixpoint utf8_decode (bs : bytes) : result text :=
  match bs with
  | [] => Return []
  | b1 :: r1 =>
      if (0 <=? b1) && (b1 <? 128) then
        let* t := utf8_decode r1 in
        Return (b1 :: t)
      else if (194 <=? b1) && (b1 <=? 223) then
        match r1 with
        | b2 :: r2 =>
            if continuation b2 then
              let* t := utf8_decode r2 in
              Return ((b1 - 192) * 64 + (b2 - 128) :: t)
            else Raise UnicodeError
        | _ => Raise UnicodeError
        end
      else if (224 <=? b1) && (b1 <=? 239) then
        match r1 with
        | b2 :: b3 :: r3 =>
            let lo := if b1 =? 224 then 160 else 128 in
            let hi := if b1 =? 237 then 159 else 191 in
            if (lo <=? b2) && (b2 <=? hi) && continuation b3 then
              let* t := utf8_decode r3 in
              Return ((b1 - 224) * 4096 + (b2 - 128) * 64 + (b3 - 128) :: t)
            else Raise UnicodeError
        | _ => Raise UnicodeError
        end
      else if (240 <=? b1) && (b1 <=? 244) then
        match r1 with
        | b2 :: b3 :: b4 :: r4 =>
            let lo := if b1 =? 240 then 144 else 128 in
            let hi := if b1 =? 244 then 143 else 191 in
            if (lo <=? b2) && (b2 <=? hi) && continuation b3
               && continuation b4 then
              let* t := utf8_decode r4 in
              Return ((b1 - 240) * 262144 + (b2 - 128) * 4096
                      + (b3 - 128) * 64 + (b4 - 128) :: t)
            else Raise UnicodeError
        | _ => Raise UnicodeError
        end
      else Raise UnicodeError
  end.

(** The codecs of one-byte characters below [limit]: 128 is ASCII, 256 is
    Latin-1. *)
Fixpoint narrow (limit : Z) (l : list Z) : result (list Z) :=
  match l with
  | [] => Return []
  | c :: l' =>
      if (0 <=? c) && (c <? limit) then
        let* r := narrow limit l' in
        Return (c :: r)
      else Raise UnicodeError
  end.

(** ** Big-endian integers *)

(** The [w] bytes of the unsigned integer [n], most significant first. *)
Fixpoint be_bytes (w : nat) (n : Z) : bytes :=
  match w with
  | O => []
  | S w' => Z.land (Z.shiftr n (8 * Z.of_nat w')) 255 :: be_bytes w' n
  end.

(** The unsigned integer a byte string spells, most significant first. *)
Definition be_unsigned (bs : bytes) : Z :=
  fold_left (fun acc b => acc * 256 + b) bs 0.

(** Two's complement on [w] bytes. *)
Definition to_signed (w : nat) (n : Z) : Z :=
  if n <? 2 ^ (8 * Z.of_nat w - 1) then n else n - 2 ^ (8 * Z.of_nat w).

Definition of_signed (w : nat) (z : Z) : Z :=
  z mod 2 ^ (8 * Z.of_nat w).

Definition int_fits (w : nat) (z : Z) : bool :=
  (- 2 ^ (8 * Z.of_nat w - 1) <=? z) && (z <? 2 ^ (8 * Z.of_nat w - 1)).

(** ** IEEE 754 floats *)

(** A Python [float] is a binary64 value, here a [spec_float] with the
    operations of the Standard Library's specification at precision 53. *)
Definition float := spec_float.

Definition fprec : Z := 53.
Definition femax : Z := 1024.

Definition float_of_int (z : Z) : float := binary_normalize fprec femax z 0 false.
Definition fadd : float -> float -> float := SFadd fprec femax.
Definition fsub : float -> float -> float := SFsub fprec femax.
Definition fmul : float -> float -> float := SFmul fprec femax.
Definition fdiv : float -> float -> float := SFdiv fprec femax.

(** [int(x)]: truncation towards zero. *)
Definition int_of_float (x : float) : result Z :=
  match x with
  | S754_zero _ => Return 0
  | S754_infinity _ => Raise OverflowError
  | S754_nan => Raise ValueError
  | S754_finite s m e =>
      let a := if 0 <=? e then Z.pos m * 2 ^ e else Z.pos m / 2 ^ (- e) in
      Return (if s then - a else a)
  end.

(** The bit pattern of a float with [mw] mantissa bits and [ew] exponent
    bits, and back.  [spec_float] keeps no NaN payload: every NaN is written
    as the quiet NaN. *)
Definition float_bits (mw ew : Z) (x : float) : Z :=
  let sign (s : bool) := if s then 2 ^ (mw + ew) else 0 in
  match x with
  | S754_zero s => sign s
  | S754_infinity s => sign s + (2 ^ ew - 1) * 2 ^ mw
  | S754_nan => (2 ^ ew - 1) * 2 ^ mw + 2 ^ (mw - 1)
  | S754_finite s m e =>
      if 2 ^ mw <=? Z.pos m
      then sign s + (e + 2 ^ (ew - 1) + mw - 1) * 2 ^ mw + (Z.pos m - 2 ^ mw)
      else sign s + Z.pos m
  end.

Definition bits_float (mw ew : Z) (n : Z) : float :=
  let s := Z.testbit n (mw + ew) in
  let bx := Z.land (Z.shiftr n mw) (2 ^ ew - 1) in
  let mx := Z.land n (2 ^ mw - 1) in
  if bx =? 0 then
    match mx with
    | Z.pos p => S754_finite s p (3 - 2 ^ (ew - 1) - (mw + 1))
    | _ => S754_zero s
    end
  else if bx =? 2 ^ ew - 1 then
    if mx =? 0 then S754_infinity s else S754_nan
  else
    match mx + 2 ^ mw with
    | Z.pos p => S754_finite s p (bx - 2 ^ (ew - 1) - mw + 1)
    | _ => S754_nan
    end.

(** ** The [struct] module, network byte order *)

(** The format characters the translator uses. *)
Inductive fmt_code : Type := Fc | Fb | Fh | Fi | Fq | Ff | Fd.

Definition fmt := list fmt_code.

Definition fmt_code_of (c : ascii) : result fmt_code :=
  match c with
  | "c"%char => Return Fc
  | "b"%char => Return Fb
  | "h"%char => Return Fh
  | "i"%char => Return Fi
  | "q"%char => Return Fq
  | "f"%char => Return Ff
  | "d"%char => Return Fd
  | _ => Raise StructError
  end.

(** [struct.Struct('!' + s)]: the compiled format. *)
Fixpoint Struct (s : string) : result fmt :=
  match s with
  | EmptyString => Return []
  | String c s' =>
      let* x := fmt_code_of c in
      let* f := Struct s' in
      Return (x :: f)
  end.

Definition width (c : fmt_code) : nat :=
  match c with
  | Fc | Fb => 1
  | Fh => 2
  | Fi | Ff => 4
  | Fq | Fd => 8
  end%nat.

Definition calcsize (f : fmt) : Z :=
  fold_right (fun c n => Z.of_nat (width c) + n) 0 f.

(** A value that [pack] takes or [unpack_from] gives. *)
Inductive sval : Type :=
| SInt (z : Z)
| SFloat (x : float)
| SBytes (b : bytes).

(** The conversion of an argument to a C double, then to the format. *)
Definition as_double (v : sval) : result float :=
  match v with
  | SFloat x => Return x
  | SInt z =>
      match float_of_int z with
      | S754_infinity _ => Raise OverflowError
      | x => Return x
      end
  | SBytes _ => Raise StructError
  end.

Definition to_single (x : float) : result float :=
  match x with
  | S754_finite s m e =>
      match binary_normalize 24 128 (cond_Zopp s (Z.pos m)) e s with
      | S754_infinity _ => Raise OverflowError
      | y => Return y
      end
  | _ => Return x
  end.

Definition of_single (x : float) : float :=
  match x with
  | S754_finite s m e => binary_normalize fprec femax (cond_Zopp s (Z.pos m)) e s
  | _ => x
  end.

Definition pack_int (w : nat) (v : sval) : result bytes :=
  match v with
  | SInt z =>
      if int_fits w z then Return (be_bytes w (of_signed w z))
      else Raise StructError
  | _ => Raise StructError
  end.

Definition pack1 (c : fmt_code) (v : sval) : result bytes :=
  match c with
  | Fc => match v with
          | SBytes [b] => Return [b]
          | _ => Raise StructError
          end
  | Fb | Fh | Fi | Fq => pack_int (width c) v
  | Fd =>
      let* x := as_double v in
      Return (be_bytes 8 (float_bits 52 11 x))
  | Ff =>
      let* x := as_double v in
      let* y := to_single x in
      Return (be_bytes 4 (float_bits 23 8 y))
  end.

(** [Struct.pack] on its arguments: one argument per format character. *)
Fixpoint pack (f : fmt) (args : list sval) : result bytes :=
  match f, args with
  | [], [] => Return []
  | c :: f', v :: args' =>
      let* b := pack1 c v in
      let* bs := pack f' args' in
      Return (b ++ bs)
  | _, _ => Raise StructError
  end.

Definition unpack1 (c : fmt_code) (bs : bytes) : sval :=
  match c with
  | Fc => SBytes bs
  | Fb | Fh | Fi | Fq => SInt (to_signed (width c) (be_unsigned bs))
  | Fd => SFloat (bits_float 52 11 (be_unsigned bs))
  | Ff => SFloat (of_single (bits_float 23 8 (be_unsigned bs)))
  end.

Fixpoint unpack_fields (f : fmt) (bs : bytes) : list sval :=
  match f with
  | [] => []
  | c :: f' =>
      unpack1 c (firstn (width c) bs) :: unpack_fields f' (skipn (width c) bs)
  end.

(** [Struct.unpack_from(data, offset)]: exactly [calcsize f] bytes are read
    at [offset]; a negative offset counts from the end of the buffer; too few
    bytes there raise [struct.error].  Bytes past the fields are ignored. *)
Definition unpack_from (f : fmt) (data : bytes) (offset : Z) : result (list sval) :=
  if offset <? 0 then
    if 0 <? offset + calcsize f then Raise StructError
    else if offset + len data <? 0 then Raise StructError
    else Return (unpack_fields f (skipn (Z.to_nat (offset + len data)) data))
  else if len data - offset <? calcsize f then Raise StructError
  else Return (unpack_fields f (skipn (Z.to_nat offset) data)).

(** ** The [datetime] and [calendar] modules *)

Definition MAXORDINAL : Z := 3652059.

Definition DAYS_IN_MONTH : list Z :=
  [-1; 31; 28; 31; 30; 31; 30; 31; 31; 30; 31; 30; 31].

Definition DAYS_BEFORE_MONTH : list Z :=
  [-1; 0; 31; 59; 90; 120; 151; 181; 212; 243; 273; 304; 334].

Definition table (t : list Z) (i : Z) : Z := nth (Z.to_nat i) t 0.

Definition is_leap (year : Z) : bool :=
  (year mod 4 =? 0) && (negb (year mod 100 =? 0) || (year mod 400 =? 0)).

Definition days_before_year (year : Z) : Z :=
  let y := year - 1 in y * 365 + y / 4 - y / 100 + y / 400.

Definition days_before_month (year month : Z) : Z :=
  table DAYS_BEFORE_MONTH month
  + (if (2 <? month) && is_leap year then 1 else 0).

Definition ymd2ord (year month day : Z) : Z :=
  days_before_year year + days_before_month year month + day.

Definition DI400Y : Z := 146097.
Definition DI100Y : Z := 36524.
Definition DI4Y : Z := 1461.

(** The date of the ordinal [n], with 0001-01-01 at ordinal 1. *)
Definition ord2ymd (n : Z) : Z * Z * Z :=
  let n := n - 1 in
  let n400 := n / DI400Y in
  let n := n mod DI400Y in
  let year := n400 * 400 + 1 in
  let n100 := n / DI100Y in
  let n := n mod DI100Y in
  let n4 := n / DI4Y in
  let n := n mod DI4Y in
  let n1 := n / 365 in
  let n := n mod 365 in
  let year := year + n100 * 100 + n4 * 4 + n1 in
  if (n1 =? 4) || (n100 =? 4) then (year - 1, 12, 31)
  else
    let leapyear := (n1 =? 3) && (negb (n4 =? 24) || (n100 =? 3)) in
    let month := Z.shiftr (n + 50) 5 in
    let preceding :=
      table DAYS_BEFORE_MONTH month
      + (if (2 <? month) && leapyear then 1 else 0) in
    if n <? preceding then
      let month := month - 1 in
      let preceding :=
        preceding
        - (table DAYS_IN_MONTH month
           + (if (month =? 2) && leapyear then 1 else 0)) in
      (year, month, n - preceding + 1)
    else (year, month, n - preceding + 1).

(** A duration, normalised: [0 <= seconds < 86400] and
    [0 <= microseconds < 1000000]. *)
Record timedelta : Type := mk_timedelta {
  days : Z;
  seconds : Z;
  microseconds : Z
}.

(** [timedelta(days, seconds, microseconds)] on integers. *)
Definition timedelta_new (d s us : Z) : result timedelta :=
  let s := s + us / 1000000 in
  let us := us mod 1000000 in
  let d := d + s / 86400 in
  let s := s mod 86400 in
  if 999999999 <? Z.abs d then Raise OverflowError
  else Return (mk_timedelta d s us).

Definition timedelta_add (a b : timedelta) : result timedelta :=
  timedelta_new (days a + days b) (seconds a + seconds b)
                (microseconds a + microseconds b).

Definition timedelta_neg (a : timedelta) : result timedelta :=
  timedelta_new (- days a) (- seconds a) (- microseconds a).

(** A time zone: the translator's [tzutc.UTC] instance, or a fixed offset
    ([datetime.timezone]) given in microseconds east of UTC. *)
Inductive tzinfo : Type :=
| UTC
| Timezone (offset : Z).

Definition utcoffset (tz : tzinfo) : result timedelta :=
  match tz with
  | UTC => timedelta_new 0 0 0
  | Timezone off => timedelta_new 0 0 off
  end.

(** [a is b] on time zone objects: only the one [UTC] instance is shared. *)
Definition tz_is (a b : tzinfo) : bool :=
  match a, b with
  | UTC, UTC => true
  | _, _ => false
  end.

Record datetime : Type := mk_datetime {
  year : Z;
  month : Z;
  day : Z;
  hour : Z;
  minute : Z;
  second : Z;
  microsecond : Z;
  tz : option tzinfo
}.

Definition datetime_min : datetime := mk_datetime 1 1 1 0 0 0 0 None.
Definition datetime_max : datetime := mk_datetime 9999 12 31 23 59 59 999999 None.

Definition replace_tzinfo (d : datetime) (z : option tzinfo) : datetime :=
  mk_datetime (year d) (month d) (day d) (hour d) (minute d) (second d)
              (microsecond d) z.

Definition toordinal (d : datetime) : Z := ymd2ord (year d) (month d) (day d).

(** [self + other] for a datetime and a timedelta. *)
Definition datetime_add (d : datetime) (other : timedelta) : result datetime :=
  let* delta :=
    timedelta_new (toordinal d)
                  (hour d * 3600 + minute d * 60 + second d) (microsecond d) in
  let* delta := timedelta_add delta other in
  let h := seconds delta / 3600 in
  let rem := seconds delta mod 3600 in
  let mi := rem / 60 in
  let s := rem mod 60 in
  if (0 <? days delta) && (days delta <=? MAXORDINAL) then
    let '(y, m, dd) := ord2ymd (days delta) in
    Return (mk_datetime y m dd h mi s (microseconds delta) (tz d))
  else Raise OverflowError.

Definition datetime_sub (d : datetime) (other : timedelta) : result datetime :=
  let* n := timedelta_neg other in
  datetime_add d n.

(** The fields of two datetimes compared, as [==] does on two naive values
    and on two values of one time zone. *)
Definition same_fields (a b : datetime) : bool :=
  (year a =? year b) && (month a =? month b) && (day a =? day b)
  && (hour a =? hour b) && (minute a =? minute b) && (second a =? second b)
  && (microsecond a =? microsecond b).

Definition offset_us (z : tzinfo) : Z :=
  match z with
  | UTC => 0
  | Timezone off => off
  end.

(** Microseconds from 0001-01-01T00:00:00 to the wall-clock reading. *)
Definition wall_us (d : datetime) : Z :=
  (((toordinal d - 1) * 24 + hour d) * 60 + minute d) * 60 * 1000000
  + second d * 1000000 + microsecond d.

(** [a == b]: a naive and an aware value are never equal; two aware values
    are equal when they name one instant. *)
Definition datetime_eq (a b : datetime) : bool :=
  match tz a, tz b with
  | None, None => same_fields a b
  | Some za, Some zb => wall_us a - offset_us za =? wall_us b - offset_us zb
  | _, _ => false
  end.

(** [self.astimezone(target)]; a naive [self] is read in the system's local
    zone [local]. *)
Definition astimezone (local : tzinfo) (self : datetime) (target : tzinfo)
  : result datetime :=
  let mytz := match tz self with Some z => z | None => local end in
  let* myoffset := utcoffset mytz in
  if tz_is target mytz then Return self
  else
    let* utc := datetime_sub self myoffset in
    let* off := utcoffset target in
    datetime_add (replace_tzinfo utc (Some target)) off.

(** [calendar.timegm(d.timetuple())]: seconds from 1970-01-01 to the
    wall-clock reading, the microseconds dropped. *)
Definition EPOCH_ORD : Z := 719163.

Definition timegm (d : datetime) : Z :=
  (((toordinal d - EPOCH_ORD) * 24 + hour d) * 60 + minute d) * 60 + second d.

(** The round trip of one ordinal through [ord2ymd] and [ymd2ord], and its
    check over [k] consecutive ordinals. *)
Definition ymd2ord3 (p : Z * Z * Z) : Z :=
  let '(y, m, d) := p in ymd2ord y m d.

Definition cycle_ok (r : Z) : bool := ymd2ord3 (ord2ymd (r + 1)) =? r + 1.

Fixpoint check_from (k : nat) (r : Z) : bool :=
  match k with
  | O => true
  | S k' => cycle_ok r && check_from k' (r + 1)
  end.

(** [round(x)] to an integer, halves to the even neighbour. *)
Definition round_half_even (x : float) : result Z :=
  match x with
  | S754_zero _ => Return 0
  | S754_infinity _ => Raise OverflowError
  | S754_nan => Raise ValueError
  | S754_finite s m e =>
      let a :=
        if 0 <=? e then Z.pos m * 2 ^ e
        else
          let d := 2 ^ (- e) in
          let q := Z.pos m / d in
          let r := Z.pos m mod d in
          if 2 * r <? d then q
          else if d <? 2 * r then q + 1
          else if Z.even q then q else q + 1 in
      Return (if s then - a else a)
  end.

(** [datetime.utcfromtimestamp(x)] as the [datetime] module computes it where
    the platform's [gmtime] covers every year: the fraction is rounded to
    microseconds, halves to even, and a year outside 1..9999 is refused. *)
Definition utcfromtimestamp (x : float) : result datetime :=
  let* t := int_of_float x in
  let frac := fsub x (float_of_int t) in
  let* us := round_half_even (fmul frac (float_of_int 1000000)) in
  let '(t, us) :=
    if 1000000 <=? us then (t + 1, us - 1000000)
    else if us <? 0 then (t - 1, us + 1000000)
    else (t, us) in
  let ordinal := EPOCH_ORD + t / 86400 in
  let rem := t mod 86400 in
  if (0 <? ordinal) && (ordinal <=? MAXORDINAL) then
    let '(y, m, d) := ord2ymd ordinal in
    Return (mk_datetime y m d (rem / 3600) (rem mod 3600 / 60) (rem mod 60)
                        us None)
  else Raise ValueError.

End Py.

(** * The host: what the process and the interpreter supply *)

Module Host.

(** A text codec of the interpreter's registry. *)
Record Codec : Type := {
  encode : Py.text -> Py.result Py.bytes;
  decode : Py.bytes -> Py.result Py.text
}.

Record t : Type := {
  (** [socket.gethostname()], [os.getpid()] and
      [os.path.basename(sys.executable)] *)
  gethostname : Py.result Py.text;
  getpid : Py.result Z;
  executable : Py.result Py.text;
  (** [codecs.lookup]: the codec a name denotes, if any *)
  lookup : string -> option Codec;
  (** [datetime.datetime.utcfromtimestamp] on a float *)
  utcfromtimestamp : Py.float -> Py.result Py.datetime;
  (** the system's local time zone *)
  local_timezone : Py.tzinfo
}.

(** A host for running the code on examples: a machine called [localhost],
    process 4242 of [python3], with the three codecs below and UTC as local
    time zone. *)
Definition utf8 : Codec :=
  {| encode := Py.utf8_encode; decode := Py.utf8_decode |}.
Definition ascii_codec : Codec :=
  {| encode := Py.narrow 128; decode := Py.narrow 128 |}.
Definition latin1 : Codec :=
  {| encode := Py.narrow 256; decode := Py.narrow 256 |}.

Definition example_lookup (name : string) : option Codec :=
  if Py.name_in name ["utf-8"; "utf8"]%string then Some utf8
  else if Py.name_in name ["ascii"]%string then Some ascii_codec
  else if Py.name_in name ["iso8859-1"; "latin-1"]%string then Some latin1
  else None.

Definition example : t := {|
  gethostname := Py.Return (Py.u "localhost");
  getpid := Py.Return 4242;
  executable := Py.Return (Py.u "python3");
  lookup := example_lookup;
  utcfromtimestamp := Py.utcfromtimestamp;
  local_timezone := Py.UTC
|}.

End Host.

(** * constants.py *)

Module Constants.

Import Py.

Definition FC_TEXT : Z := 0.
Definition FC_BINARY : Z := 1.

Definition VERSION_MAJOR : Z := 3.
Definition VERSION_MINOR : Z := 0.
Definition DEFAULT_PROTOCOL_VERSION : Z :=
  Z.lor (Z.shiftl VERSION_MAJOR 16) VERSION_MINOR.

(** [str(n)] for an integer. *)
Definition str_of_int (n : Z) : text :=
  u (pretty n).

Definition or_else {A : Type} (c : result A) (a : A) : A :=
  match c with
  | Return x => x
  | Raise _ => a
  end.

Section WithHost.

Variable host : Host.t.

Definition HOSTNAME : text := or_else (Host.gethostname host) (u "UNKNOWNHOST").

Definition PID : text :=
  or_else (let* p := Host.getpid host in Return (str_of_int p)) (u "UNKNOWNPID").

Definition EXECUTABLE : text :=
  or_else (Host.executable host) (u "UNKNOWNEXECUTABLE").

Definition APPLICATION_NAME : text :=
  HOSTNAME ++ u "_" ++ PID ++ u "_" ++ EXECUTABLE.

End WithHost.

Definition MIN_INT2 : Z := - 2 ^ 15.
Definition MAX_INT2 : Z := 2 ^ 15.
Definition MIN_INT4 : Z := - 2 ^ 31.
Definition MAX_INT4 : Z := 2 ^ 31.
Definition MIN_INT8 : Z := - 2 ^ 63.
Definition MAX_INT8 : Z := 2 ^ 63.

Definition PG_ARRAY_TYPES : gmap Z Z :=
  list_to_map [(16, 1000); (25, 1009); (701, 1022); (1700, 1231)].

End Constants.

(** * tzutc.py *)

Module Tzutc.

(** The class [UTC]: every method ignores the datetime it is given.  Its
    instances are the time zone [Py.UTC]. *)
Definition zero_delta : Py.timedelta := Py.mk_timedelta 0 0 0.
Definition utcoffset (dt : Py.datetime) : Py.timedelta := zero_delta.
Definition tzname (dt : Py.datetime) : string := "UTC".
Definition dst (dt : Py.datetime) : Py.timedelta := zero_delta.

End Tzutc.

(** * translate.py *)

Module Translate.

Import Py.

(** The names bound at the top level of the module: its imports and the
    class itself. *)
Definition globals : list string :=
  ["six"; "json"; "uuid"; "struct"; "decimal"; "datetime"; "calendar";
   "ipaddress"; "defaultdict"; "interval"; "types"; "constants"; "errors";
   "tzutc"; "PostgresTranslate"]%string.

(** ** The translator object *)

(** The methods that the two registries hold, by name. *)
Inductive method : Type :=
| M_bool_recv | M_bytea_recv | M_text_recv | M_int8_recv | M_int2_recv
| M_vector_in | M_int4_recv | M_int_in | M_json_in | M_float4_recv
| M_float8_recv | M_inet_in | M_array_recv | M_date_in | M_time_in
| M_timestamp_recv_float | M_timestamptz_recv_float
| M_timestamp_recv_integer | M_timestamptz_recv_integer
| M_interval_recv_integer | M_interval_recv_float
| M_num_array_in | M_numeric_in | M_uuid_recv
| M_null_send | M_bool_send | M_unknown_out | M_d_pack | M_inet_out
| M_date_out | M_time_out
| M_timestamp_send_integer | M_timestamptz_send_integer
| M_timestamp_send_float | M_timestamptz_send_float
| M_interval_send_integer | M_interval_send_float
| M_numeric_out | M_uuid_send | M_bytea_send | M_text_out.

(** The native types that key the outbound registry. *)
Inductive pytype : Type :=
| NoneType | T_bool | T_int | T_float
| IPv4Address | IPv6Address | IPv4Network | IPv6Network
| T_date | T_time | T_datetime | T_timedelta | Interval | Decimal | UUID
| T_bytes | T_str | T_list | T_tuple.

(** A key of [py_types]: a type object, or one of the integers 1114 and 1184
    under which the two timestamp encoders are filed. *)
Inductive pykey : Type :=
| KType (t : pytype)
| KInt (z : Z).

Definition pytype_index (t : pytype) : nat :=
  match t with
  | NoneType => 0 | T_bool => 1 | T_int => 2 | T_float => 3
  | IPv4Address => 4 | IPv6Address => 5 | IPv4Network => 6 | IPv6Network => 7
  | T_date => 8 | T_time => 9 | T_datetime => 10 | T_timedelta => 11
  | Interval => 12 | Decimal => 13 | UUID => 14 | T_bytes => 15 | T_str => 16
  | T_list => 17 | T_tuple => 18
  end%nat.

Definition pytype_of_index (n : nat) : option pytype :=
  nth_error [NoneType; T_bool; T_int; T_float; IPv4Address; IPv6Address;
             IPv4Network; IPv6Network; T_date; T_time; T_datetime; T_timedelta;
             Interval; Decimal; UUID; T_bytes; T_str; T_list; T_tuple] n.

#[global] Instance pytype_eq_dec : EqDecision pytype.
Proof. solve_decision. Defined.

#[global] Instance pytype_countable : Countable pytype.
Proof.
  apply (inj_countable pytype_index pytype_of_index).
  intros []; reflexivity.
Defined.

#[global] Instance pykey_eq_dec : EqDecision pykey.
Proof. solve_decision. Defined.

#[global] Instance pykey_countable : Countable pykey.
Proof.
  apply (inj_countable
           (fun k => match k with KType t => inl t | KInt z => inr z end)
           (fun s => Some match s with inl t => KType t | inr z => KInt z end)).
  intros []; reflexivity.
Defined.

(** A function made by [_create_pack_funcs]: the [pack] or the [unpack_from]
    of one compiled format. *)
Inductive packfn : Type :=
| Pack (f : fmt)
| Unpack (f : fmt).

(** The mutable state of a translator.  [funcs] holds the attributes that
    [_create_pack_funcs] sets with [setattr], by attribute name. *)
Record PostgresTranslate : Type := mk_translate {
  client_encoding : option string;
  max_pack_shorts_count : Z;
  funcs : gmap string packfn;
  pack_shorts : gmap Z packfn;
  unpack_shorts : gmap Z packfn;
  null : bytes;
  pg_types : gmap Z (Z * method);
  py_types : gmap pykey (Z * Z * method);
  encodings : gmap string (option string)
}.

Definition set_client_encoding (self : PostgresTranslate) (e : option string) :=
  mk_translate e (max_pack_shorts_count self) (funcs self) (pack_shorts self)
    (unpack_shorts self) (null self) (pg_types self) (py_types self)
    (encodings self).

Definition set_funcs (self : PostgresTranslate) (f : gmap string packfn) :=
  mk_translate (client_encoding self) (max_pack_shorts_count self) f
    (pack_shorts self) (unpack_shorts self) (null self) (pg_types self)
    (py_types self) (encodings self).

Definition set_shorts (self : PostgresTranslate) (p up : gmap Z packfn) :=
  mk_translate (client_encoding self) (max_pack_shorts_count self) (funcs self)
    p up (null self) (pg_types self) (py_types self) (encodings self).

Definition set_null (self : PostgresTranslate) (n : bytes) :=
  mk_translate (client_encoding self) (max_pack_shorts_count self) (funcs self)
    (pack_shorts self) (unpack_shorts self) n (pg_types self) (py_types self)
    (encodings self).

Definition set_pg_types (self : PostgresTranslate) (m : gmap Z (Z * method)) :=
  mk_translate (client_encoding self) (max_pack_shorts_count self) (funcs self)
    (pack_shorts self) (unpack_shorts self) (null self) m (py_types self)
    (encodings self).

Definition set_py_types (self : PostgresTranslate)
    (m : gmap pykey (Z * Z * method)) :=
  mk_translate (client_encoding self) (max_pack_shorts_count self) (funcs self)
    (pack_shorts self) (unpack_shorts self) (null self) (pg_types self) m
    (encodings self).

Definition set_encodings (self : PostgresTranslate)
    (m : gmap string (option string)) :=
  mk_translate (client_encoding self) (max_pack_shorts_count self) (funcs self)
    (pack_shorts self) (unpack_shorts self) (null self) (pg_types self)
    (py_types self) m.

(** The attributes every instance has: the methods of the class body, the
    data attributes that [__init__] assigns, and the four functions that
    [_create_bytea_recv_func] and [_create_text_recv_func] set. *)
Definition class_attrs : list string :=
  ["__init__"; "_establish_postgres_types"; "_establish_python_types";
   "_establish_encoding_hash"; "update_client_encoding";
   "timestamps_are_integers"; "timestamps_are_floats";
   "timestamp_recv_integer"; "timestamp_recv_float";
   "timestamp_send_integer"; "timestamp_send_float";
   "timestamptz_send_integer"; "timestamptz_send_float";
   "timestamptz_recv_integer"; "timestamptz_recv_float";
   "interval_send_integer"; "interval_send_float";
   "interval_recv_integer"; "interval_recv_float";
   "int8_recv"; "int2_recv"; "int4_recv"; "float4_recv"; "float8_recv";
   "int_in"; "text_out"; "time_out"; "date_out"; "unknown_out";
   "num_array_in"; "array_recv"; "bytea_send"; "_create_bytea_recv_func";
   "_create_text_recv_func"; "time_in"; "date_in"; "numeric_in";
   "numeric_out"; "vector_in"; "uuid_send"; "uuid_recv"; "inet_out";
   "inet_in"; "bool_send"; "null_send"; "get_translator_for_complex_type";
   "get_translators"; "inspect_datetime"; "inspect_array"; "array_flatten";
   "_create_pack_funcs"; "_create_pack_shorts";
   "_create_pack_shorts_for_index"]%string.

Definition data_attrs : list string :=
  ["client_encoding"; "FC_TEXT"; "FC_BINARY"; "max_pack_shorts_count";
   "pack_shorts"; "unpack_shorts"; "bytea_recv"; "text_recv"; "bool_recv";
   "json_in"; "utc"; "epoch"; "epoch_tz"; "epoch_seconds";
   "infinity_microseconds"; "minus_infinity_microseconds";
   "datetime_max_tz"; "datetime_min_tz"; "true"; "false"; "null";
   "null_byte"; "translation_table"; "glbls"; "pg_types"; "py_types";
   "encodings"]%string.

(** [self.name]: the attribute resolves, or [AttributeError]. *)
Definition getattr (self : PostgresTranslate) (name : string) : result unit :=
  if name_in name class_attrs || name_in name data_attrs
     || bool_decide (is_Some (funcs self !! name))
  then Return tt
  else Raise (AttributeError name).

(** ** _create_pack_funcs, _create_pack_shorts *)

Definition _create_pack_funcs (self : PostgresTranslate) (fmt : string)
  : result PostgresTranslate :=
  let* struc := Struct fmt in
  Return (set_funcs self
            (<[String.append fmt "_unpack" := Unpack struc]>
               (<[String.append fmt "_pack" := Pack struc]> (funcs self)))).

(** [getattr(self, name)] for a name that [_create_pack_funcs] binds. *)
Definition getfunc (self : PostgresTranslate) (name : string) : result packfn :=
  match funcs self !! name with
  | Some f => Return f
  | None => Raise (AttributeError name)
  end.

(** A call of a function made by [_create_pack_funcs]. *)
Definition call_pack (self : PostgresTranslate) (name : string)
    (args : list sval) : result bytes :=
  let* f := getfunc self name in
  match f with
  | Pack struc => pack struc args
  | Unpack _ => Raise TypeError
  end.

Definition call_unpack (self : PostgresTranslate) (name : string)
    (data : bytes) (offset : Z) : result (list sval) :=
  let* f := getfunc self name in
  match f with
  | Unpack struc => unpack_from struc data offset
  | Pack _ => Raise StructError
  end.

(** [n * "h"] *)
Definition string_mul (n : Z) (s : string) : string :=
  Nat.iter (Z.to_nat n) (String.append s) EmptyString.

(** [range(lo, hi)] *)
Definition range (lo hi : Z) : list Z := seqZ lo (hi - lo).

Fixpoint for_each {A S : Type} (body : S -> A -> result S) (l : list A)
    (s : S) : result S :=
  match l with
  | [] => Return s
  | a :: l' =>
      let* s' := body s a in
      for_each body l' s'
  end.

Definition _create_pack_shorts (self : PostgresTranslate)
  : result PostgresTranslate :=
  let self := set_shorts self ∅ ∅ in
  for_each
    (fun self index =>
       let fmt := string_mul index "h" in
       let* self := _create_pack_funcs self fmt in
       let* p := getfunc self (String.append fmt "_pack") in
       let self := set_shorts self (<[index := p]> (pack_shorts self))
                              (unpack_shorts self) in
       let* up := getfunc self (String.append fmt "_unpack") in
       Return (set_shorts self (pack_shorts self)
                          (<[index := up]> (unpack_shorts self))))
    (range 1 (max_pack_shorts_count self)) self.

Definition _create_pack_shorts_for_index (self : PostgresTranslate) (index : Z)
  : result PostgresTranslate :=
  let fmt := string_mul index "h" in
  let* self := _create_pack_funcs self fmt in
  let* p := getfunc self (String.append fmt "_pack") in
  let self := set_shorts self (<[index := p]> (pack_shorts self))
                         (unpack_shorts self) in
  let* up := getfunc self (String.append fmt "_unpack") in
  Return (set_shorts self (pack_shorts self)
                     (<[index := up]> (unpack_shorts self))).

(** ** The registries *)

Definition FC_TEXT : Z := Constants.FC_TEXT.
Definition FC_BINARY : Z := Constants.FC_BINARY.

(** The value that the [defaultdict] makes for a missing key. *)
Definition pg_types_default : Z * method := (FC_TEXT, M_text_recv).

Definition _establish_postgres_types (self : PostgresTranslate)
  : PostgresTranslate :=
  set_pg_types self (list_to_map [
    (16,   (FC_BINARY, M_bool_recv));
    (17,   (FC_BINARY, M_bytea_recv));
    (19,   (FC_BINARY, M_text_recv));
    (20,   (FC_BINARY, M_int8_recv));
    (21,   (FC_BINARY, M_int2_recv));
    (22,   (FC_TEXT,   M_vector_in));
    (23,   (FC_BINARY, M_int4_recv));
    (25,   (FC_BINARY, M_text_recv));
    (26,   (FC_TEXT,   M_int_in));
    (28,   (FC_TEXT,   M_int_in));
    (114,  (FC_TEXT,   M_json_in));
    (700,  (FC_BINARY, M_float4_recv));
    (701,  (FC_BINARY, M_float8_recv));
    (705,  (FC_BINARY, M_text_recv));
    (829,  (FC_TEXT,   M_text_recv));
    (869,  (FC_TEXT,   M_inet_in));
    (1000, (FC_BINARY, M_array_recv));
    (1003, (FC_BINARY, M_array_recv));
    (1005, (FC_BINARY, M_array_recv));
    (1007, (FC_BINARY, M_array_recv));
    (1009, (FC_BINARY, M_array_recv));
    (1014, (FC_BINARY, M_array_recv));
    (1015, (FC_BINARY, M_array_recv));
    (1016, (FC_BINARY, M_array_recv));
    (1021, (FC_BINARY, M_array_recv));
    (1022, (FC_BINARY, M_array_recv));
    (1042, (FC_BINARY, M_text_recv));
    (1043, (FC_BINARY, M_text_recv));
    (1082, (FC_TEXT,   M_date_in));
    (1083, (FC_TEXT,   M_time_in));
    (1114, (FC_BINARY, M_timestamp_recv_float));
    (1184, (FC_BINARY, M_timestamptz_recv_float));
    (1186, (FC_BINARY, M_interval_recv_integer));
    (1231, (FC_TEXT,   M_num_array_in));
    (1263, (FC_BINARY, M_array_recv));
    (1700, (FC_TEXT,   M_numeric_in));
    (2275, (FC_BINARY, M_text_recv));
    (2950, (FC_BINARY, M_uuid_recv));
    (3802, (FC_TEXT,   M_json_in))]).

(** [self.pg_types[oid]]: a missing key is filled with the default, which is
    returned; the registry after the lookup is the second component. *)
Definition pg_types_getitem (self : PostgresTranslate) (oid : Z)
  : (Z * method) * PostgresTranslate :=
  match pg_types self !! oid with
  | Some d => (d, self)
  | None =>
      (pg_types_default,
       set_pg_types self (<[oid := pg_types_default]> (pg_types self)))
  end.

Definition _establish_python_types (self : PostgresTranslate)
  : PostgresTranslate :=
  let py : gmap pykey (Z * Z * method) := list_to_map [
    (KType NoneType,    (-1,   FC_BINARY, M_null_send));
    (KType T_bool,      (16,   FC_BINARY, M_bool_send));
    (KType T_int,       (705,  FC_TEXT,   M_unknown_out));
    (KType T_float,     (701,  FC_BINARY, M_d_pack));
    (KType IPv4Address, (869,  FC_TEXT,   M_inet_out));
    (KType IPv6Address, (869,  FC_TEXT,   M_inet_out));
    (KType IPv4Network, (869,  FC_TEXT,   M_inet_out));
    (KType IPv6Network, (869,  FC_TEXT,   M_inet_out));
    (KType T_date,      (1082, FC_TEXT,   M_date_out));
    (KType T_time,      (1083, FC_TEXT,   M_time_out));
    (KInt 1114,         (1114, FC_BINARY, M_timestamp_send_integer));
    (KInt 1184,         (1184, FC_BINARY, M_timestamptz_send_integer));
    (KType T_timedelta, (1186, FC_BINARY, M_interval_send_integer));
    (KType Interval,    (1186, FC_BINARY, M_interval_send_integer));
    (KType Decimal,     (1700, FC_TEXT,   M_numeric_out));
    (KType UUID,        (2950, FC_BINARY, M_uuid_send))] in
  let py := <[KType T_bytes := (17, FC_BINARY, M_bytea_send)]> py in
  let py := <[KType T_str := (705, FC_TEXT, M_text_out)]> py in
  set_py_types self py.

Definition _establish_encoding_hash (self : PostgresTranslate)
  : PostgresTranslate :=
  set_encodings self (list_to_map [
    ("mule_internal", None);
    ("euc_tw", None);
    ("euc_cn", Some "gb2312");
    ("iso_8859_5", Some "is8859_5");
    ("iso_8859_6", Some "is8859_6");
    ("iso_8859_7", Some "is8859_7");
    ("iso_8859_8", Some "is8859_8");
    ("koi8", Some "koi8_r");
    ("latin1", Some "iso8859-1");
    ("latin2", Some "iso8859_2");
    ("latin3", Some "iso8859_3");
    ("latin4", Some "iso8859_4");
    ("latin5", Some "iso8859_9");
    ("latin6", Some "iso8859_10");
    ("latin7", Some "iso8859_13");
    ("latin8", Some "iso8859_14");
    ("latin9", Some "iso8859_15");
    ("sql_ascii", Some "ascii");
    ("win866", Some "cp886");
    ("win874", Some "cp874");
    ("win1250", Some "cp1250");
    ("win1251", Some "cp1251");
    ("win1252", Some "cp1252");
    ("win1253", Some "cp1253");
    ("win1254", Some "cp1254");
    ("win1255", Some "cp1255");
    ("win1256", Some "cp1256");
    ("win1257", Some "cp1257");
    ("win1258", Some "cp1258");
    ("unicode", Some "utf-8")]%string).

(** [dict.get(key, default)] *)
Definition dict_get {K V : Type} `{Countable K} (m : gmap K V) (k : K)
    (default : V) : V :=
  match m !! k with
  | Some v => v
  | None => default
  end.

Definition update_client_encoding (self : PostgresTranslate) (encoding : string)
  : PostgresTranslate :=
  set_client_encoding self (dict_get (encodings self) encoding (Some encoding)).

Definition timestamps_are_integers (self : PostgresTranslate)
  : PostgresTranslate :=
  let self := set_pg_types self
    (<[1114 := (FC_BINARY, M_timestamp_recv_integer)]> (pg_types self)) in
  let self := set_pg_types self
    (<[1184 := (FC_BINARY, M_timestamptz_recv_integer)]> (pg_types self)) in
  let self := set_pg_types self
    (<[1186 := (FC_BINARY, M_interval_recv_integer)]> (pg_types self)) in
  let self := set_py_types self
    (<[KInt 1114 := (1114, FC_BINARY, M_timestamp_send_integer)]>
       (py_types self)) in
  let self := set_py_types self
    (<[KInt 1184 := (1184, FC_BINARY, M_timestamptz_send_integer)]>
       (py_types self)) in
  let self := set_py_types self
    (<[KType Interval := (1186, FC_BINARY, M_interval_send_integer)]>
       (py_types self)) in
  set_py_types self
    (<[KType T_timedelta := (1186, FC_BINARY, M_interval_send_integer)]>
       (py_types self)).

Definition timestamps_are_floats (self : PostgresTranslate)
  : PostgresTranslate :=
  let self := set_pg_types self
    (<[1114 := (FC_BINARY, M_timestamp_recv_float)]> (pg_types self)) in
  let self := set_pg_types self
    (<[1184 := (FC_BINARY, M_timestamptz_recv_float)]> (pg_types self)) in
  let self := set_pg_types self
    (<[1186 := (FC_BINARY, M_interval_recv_float)]> (pg_types self)) in
  let self := set_py_types self
    (<[KInt 1114 := (1114, FC_BINARY, M_timestamp_send_float)]>
       (py_types self)) in
  let self := set_py_types self
    (<[KInt 1184 := (1184, FC_BINARY, M_timestamptz_send_float)]>
       (py_types self)) in
  let self := set_py_types self
    (<[KType Interval := (1186, FC_BINARY, M_interval_send_float)]>
       (py_types self)) in
  set_py_types self
    (<[KType T_timedelta := (1186, FC_BINARY, M_interval_send_float)]>
       (py_types self)).

(** ** __init__ *)

Definition binary_formats : list string :=
  ["i"; "h"; "q"; "d"; "f"; "iii"; "ii"; "qii"; "dii"; "ihihih"; "ci"; "bh";
   "cccc"]%string.

(** The constants that [__init__] stores on the instance. *)
Definition utc : tzinfo := UTC.
Definition epoch : datetime := mk_datetime 2000 1 1 0 0 0 0 None.
Definition epoch_tz : datetime := replace_tzinfo epoch (Some utc).
Definition epoch_seconds : Z := timegm epoch.
Definition infinity_microseconds : Z := 2 ^ 63 - 1.
Definition minus_infinity_microseconds : Z := -1 * infinity_microseconds - 1.
Definition datetime_max_tz : datetime := replace_tzinfo datetime_max (Some utc).
Definition datetime_min_tz : datetime := replace_tzinfo datetime_min (Some utc).
Definition true_ : bytes := [1].
Definition false_ : bytes := [0].
Definition null_byte : bytes := [0].

Definition i_pack (self : PostgresTranslate) (x : Z) : result bytes :=
  call_pack self "i_pack" [SInt x].

Definition __init__ (client_encoding : option string)
    (max_pack_shorts_count : Z) : result PostgresTranslate :=
  let self := mk_translate client_encoding max_pack_shorts_count ∅ ∅ ∅ []
                           ∅ ∅ ∅ in
  let* self := for_each _create_pack_funcs binary_formats self in
  let* self := _create_pack_shorts self in
  let* n := i_pack self (-1) in
  let self := set_null self n in
  let self := _establish_postgres_types self in
  let self := _establish_python_types self in
  Return (_establish_encoding_hash self).

(** [PostgresTranslate(client_encoding=e)]: the second argument at its
    default. *)
Definition new (client_encoding : option string) : result PostgresTranslate :=
  __init__ client_encoding 20.

(** ** The scalar codecs *)

(** Element [i] of an unpacked tuple, as an integer or as a float. *)
Definition int_item (vs : list sval) (i : Z) : result Z :=
  let* v := getitem vs i in
  match v with
  | SInt z => Return z
  | _ => Raise TypeError
  end.

Definition float_item (vs : list sval) (i : Z) : result float :=
  let* v := getitem vs i in
  match v with
  | SFloat x => Return x
  | _ => Raise TypeError
  end.

Definition h_unpack self data offset := call_unpack self "h_unpack" data offset.
Definition i_unpack self data offset := call_unpack self "i_unpack" data offset.
Definition q_unpack self data offset := call_unpack self "q_unpack" data offset.
Definition d_unpack self data offset := call_unpack self "d_unpack" data offset.
Definition q_pack self (x : Z) := call_pack self "q_pack" [SInt x].
Definition d_pack self (x : float) := call_pack self "d_pack" [SFloat x].

Definition int8_recv (self : PostgresTranslate) (data : bytes)
    (offset length : Z) : result Z :=
  let* vs := q_unpack self data offset in
  int_item vs 0.

Definition int2_recv (self : PostgresTranslate) (data : bytes)
    (offset length : Z) : result Z :=
  let* vs := h_unpack self data offset in
  int_item vs 0.

Definition int4_recv (self : PostgresTranslate) (data : bytes)
    (offset length : Z) : result Z :=
  let* vs := i_unpack self data offset in
  int_item vs 0.

Definition float8_recv (self : PostgresTranslate) (data : bytes)
    (offset length : Z) : result float :=
  let* vs := d_unpack self data offset in
  float_item vs 0.

Definition bytea_send (data : bytes) : bytes := data.

Definition bytea_recv (data : bytes) (offset length : Z) : bytes :=
  slice data offset (offset + length).

Definition bool_recv (data : bytes) (offset length : Z) : result bool :=
  let* b := getitem data offset in
  Return (b =? 1).

(** [self.true if value else false]: the second alternative is the bare name
    [false], looked up among the globals and only when [value] is false.  Were
    the name bound, its value would be returned. *)
Definition bool_send (self : PostgresTranslate) (value : bool) : result bytes :=
  if value then Return true_
  else
    let* _ := load_global globals "false" in
    Return false_.

Definition null_send (self : PostgresTranslate) : bytes := null self.

(** *** Timestamps as integers *)

(** The [try] of the two integer decoders: [start + timedelta(micros)], an
    [OverflowError] caught and mapped on the two sentinels. *)
Definition recv_integer (start hi lo : datetime) (micros : Z) : result datetime :=
  match (let* td := timedelta_new 0 0 micros in datetime_add start td) with
  | Return d => Return d
  | Raise OverflowError =>
      if micros =? infinity_microseconds then Return hi
      else if micros =? minus_infinity_microseconds then Return lo
      else Raise OverflowError
  | Raise e => Raise e
  end.

Definition timestamp_recv_integer (self : PostgresTranslate) (data : bytes)
    (offset length : Z) : result datetime :=
  let* vs := q_unpack self data offset in
  let* micros := int_item vs 0 in
  recv_integer epoch datetime_max datetime_min micros.

Definition timestamptz_recv_integer (self : PostgresTranslate) (data : bytes)
    (offset length : Z) : result datetime :=
  let* vs := q_unpack self data offset in
  let* micros := int_item vs 0 in
  recv_integer epoch_tz datetime_max_tz datetime_min_tz micros.

Definition timestamp_send_integer (self : PostgresTranslate)
    (timestamp : datetime) : result bytes :=
  let* micros :=
    if datetime_eq timestamp datetime_max then Return infinity_microseconds
    else if datetime_eq timestamp datetime_min then
      Return minus_infinity_microseconds
    else
      let* n := int_of_float
                  (fmul (float_of_int (timegm timestamp - epoch_seconds))
                        (float_of_int 1000000)) in
      Return (n + microsecond timestamp) in
  q_pack self micros.

Definition timestamp_send_float (self : PostgresTranslate)
    (timestamp : datetime) : result bytes :=
  d_pack self
    (fsub (fadd (float_of_int (timegm timestamp))
                (fdiv (float_of_int (microsecond timestamp))
                      (float_of_int 1000000)))
          (float_of_int epoch_seconds)).

Section WithHost.

Variable host : Host.t.

(** [data.encode(encoding)] and [str(data, encoding)]: an [encoding] that is
    not a string is refused before anything is converted. *)
Definition str_encode (data : text) (encoding : option string) : result bytes :=
  match encoding with
  | None => Raise TypeError
  | Some name =>
      match Host.lookup host name with
      | Some c => Host.encode c data
      | None => Raise LookupError
      end
  end.

Definition str_decode (data : bytes) (encoding : option string) : result text :=
  match encoding with
  | None => Raise TypeError
  | Some name =>
      match Host.lookup host name with
      | Some c => Host.decode c data
      | None => Raise LookupError
      end
  end.

Definition text_out (self : PostgresTranslate) (data : text) : result bytes :=
  str_encode data (client_encoding self).

Definition text_recv (self : PostgresTranslate) (data : bytes)
    (offset length : Z) : result text :=
  str_decode (slice data offset (offset + length)) (client_encoding self).

(** *** Timestamps as floats *)

Definition timestamp_recv_float (self : PostgresTranslate) (data : bytes)
    (offset length : Z) : result datetime :=
  let* vs := d_unpack self data offset in
  let* x := float_item vs 0 in
  Host.utcfromtimestamp host (fadd (float_of_int epoch_seconds) x).

(** [self.timestamp_recv_float(data, offset, length).replace(tzinfo=utc)]:
    the call is evaluated first, then the argument, the bare name [utc],
    which is looked up among the globals.  Were it bound, the result would
    carry its value as time zone. *)
Definition timestamptz_recv_float (self : PostgresTranslate) (data : bytes)
    (offset length : Z) : result datetime :=
  let* d := timestamp_recv_float self data offset length in
  let* _ := load_global globals "utc" in
  Return (replace_tzinfo d (Some utc)).

(** *** Timestamps with a time zone, outbound *)

Definition timestamptz_send_integer (self : PostgresTranslate)
    (timestamp : datetime) : result bytes :=
  let* d := astimezone (Host.local_timezone host) timestamp utc in
  timestamp_send_integer self (replace_tzinfo d None).

Definition timestamptz_send_float (self : PostgresTranslate)
    (timestamp : datetime) : result bytes :=
  let* d := astimezone (Host.local_timezone host) timestamp utc in
  timestamp_send_float self (replace_tzinfo d None).

End WithHost.

(** ** Outbound dispatch and arrays *)

Set Warnings "-register-all".

(** The native values in reach of the outbound dispatch that concern arrays:
    [None], booleans, integers, text, datetimes, and lists of these. *)
Inductive pyval : Type :=
| PNone
| PBool (b : bool)
| PInt (z : Z)
| PStr (s : text)
| PDatetime (d : datetime)
| PList (l : list pyval).

Definition type_of (v : pyval) : pytype :=
  match v with
  | PNone => NoneType
  | PBool _ => T_bool
  | PInt _ => T_int
  | PStr _ => T_str
  | PDatetime _ => T_datetime
  | PList _ => T_list
  end.

(** [issubclass(typ, six.integer_types)]: [bool] is a subclass of [int]. *)
Definition is_integer_type (t : pytype) : bool :=
  match t with
  | T_int | T_bool => true
  | _ => false
  end.

(** What an entry of [py_types] is, and what [inspect_array] returns: an
    OID, a format code and the encoder.  For an array the encoder is the
    closure [send_array], which keeps the element OID. *)
Inductive encoder : Type :=
| Method (m : method)
| SendArray (oid : Z).

Definition translator : Type := Z * Z * encoder.

Definition of_entry (e : Z * Z * method) : translator :=
  let '(oid, fc, m) := e in (oid, fc, Method m).

Definition py_types_getitem (self : PostgresTranslate) (k : pykey)
  : result translator :=
  match py_types self !! k with
  | Some e => Return (of_entry e)
  | None => Raise KeyError
  end.

Definition inspect_datetime (self : PostgresTranslate) (value : datetime)
  : result translator :=
  match tz value with
  | None => py_types_getitem self (KInt 1114)
  | Some _ => py_types_getitem self (KInt 1184)
  end.

(** The generator [array_flatten], run to its end. *)
Fixpoint array_flatten_item (v : pyval) : list pyval :=
  match v with
  | PList l => flat_map array_flatten_item l
  | _ => [v]
  end.

Definition array_flatten (arr : list pyval) : list pyval :=
  flat_map array_flatten_item arr.

(** [lo < v < hi] for an element of the flattened list: a boolean counts as
    0 or 1, and an element that is no number cannot be ordered with an
    integer. *)
Definition between (lo hi : Z) (v : pyval) : result bool :=
  match v with
  | PInt z => Return ((lo <? z) && (z <? hi))
  | PBool b => let z := if b then 1 else 0 in Return ((lo <? z) && (z <? hi))
  | _ => Raise TypeError
  end.

(** The loop of [inspect_array] over the flattened elements, on the three
    flags [(int2_ok, int4_ok, int8_ok)]. *)
Definition probe_step (flags : bool * bool * bool) (v : pyval)
  : result (bool * bool * bool) :=
  let '(int2_ok, int4_ok, int8_ok) := flags in
  match v with
  | PNone => Return flags
  | _ =>
      let* fit2 := between Constants.MIN_INT2 Constants.MAX_INT2 v in
      if fit2 then Return flags
      else
        let int2_ok := false in
        let* fit4 := between Constants.MIN_INT4 Constants.MAX_INT4 v in
        if fit4 then Return (int2_ok, int4_ok, int8_ok)
        else
          let int4_ok := false in
          let* fit8 := between Constants.MIN_INT8 Constants.MAX_INT8 v in
          if fit8 then Return (int2_ok, int4_ok, int8_ok)
          else Return (int2_ok, int4_ok, false)
  end.

Definition probe_ints (flattened : list pyval) : result (bool * bool * bool) :=
  for_each probe_step flattened (true, true, true).

(** [self.get_translators((v,))[0]] for an element [v] of a flattened list,
    which is never a list itself: the registry entry of its type, else the
    entry that [inspect_datetime] picks, else the [raise NotSupportedError] of
    [get_translator_for_complex_type], a name to be looked up. *)
Definition leaf_translator (self : PostgresTranslate) (v : pyval)
  : result translator :=
  match py_types_getitem self (KType (type_of v)) with
  | Return t => Return t
  | Raise KeyError =>
      match v with
      | PDatetime d => inspect_datetime self d
      | _ =>
          let* _ := load_global globals "NotSupportedError" in
          Raise NotSupportedError
      end
  | Raise e => Raise e
  end.

(** The [try] of the branch for elements that are no integers.  The handlers
    are tried in order: the first names [KeyError]; the second names
    [NotSupportedError], and naming it is itself evaluated. *)
Definition other_array_oid (self : PostgresTranslate) (first : pyval)
  : result (Z * Z * Z) :=
  let body :=
    let* _ := load_global globals "first_element" in
    let* t := leaf_translator self first in
    let '(oid, fc, _) := t in
    let '(oid, fc) := if oid =? 705 then (25, FC_BINARY) else (oid, fc) in
    match Constants.PG_ARRAY_TYPES !! oid with
    | Some array_oid => Return (array_oid, fc, oid)
    | None => Raise KeyError
    end in
  match body with
  | Return r => Return r
  | Raise KeyError => Raise ArrayContentNotSupportedError
  | Raise e =>
      let* _ := load_global globals "NotSupportedError" in
      match e with
      | NotSupportedError => Raise ArrayContentNotSupportedError
      | _ => Raise e
      end
  end.

(** [inspect_array]: the array OID, the format code and the encoder for a
    list.  Its first statement calls [self.flatten_array]; the class defines
    [array_flatten].  The statements after it are written with the elements
    that [array_flatten] yields. *)
Definition inspect_array (self : PostgresTranslate) (value : list pyval)
  : result translator :=
  let* _ := getattr self "flatten_array" in
  let flattened := array_flatten value in
  match flattened with
  | [] => Raise ArrayContentEmptyError
  | first :: _ =>
      if is_integer_type (type_of first) then
        let* flags := probe_ints flattened in
        let '(int2_ok, int4_ok, int8_ok) := flags in
        if int2_ok then
          let* _ := load_global globals "h_pack" in
          Return (1005, FC_BINARY, SendArray 21)
        else if int4_ok then
          let* _ := load_global globals "i_pack" in
          Return (1007, FC_BINARY, SendArray 23)
        else if int8_ok then
          let* _ := load_global globals "q_pack" in
          Return (1016, FC_BINARY, SendArray 20)
        else Raise ArrayContentNotSupportedError
      else
        let* r := other_array_oid self first in
        let '(array_oid, fc, oid) := r in
        Return (array_oid, fc, SendArray oid)
  end.

Definition get_translator_for_complex_type (self : PostgresTranslate)
    (typ : pytype) (value : pyval) : result translator :=
  if bool_decide (typ = T_datetime) then
    match value with
    | PDatetime d => inspect_datetime self d
    | _ => Raise (AttributeError "tzinfo")
    end
  else if bool_decide (typ = T_list) || bool_decide (typ = T_tuple) then
    match value with
    | PList l => inspect_array self l
    | _ => Raise TypeError
    end
  else
    let* _ := load_global globals "NotSupportedError" in
    Raise NotSupportedError.

Definition get_translators (self : PostgresTranslate) (values : list pyval)
  : result (list translator) :=
  for_each
    (fun translators value =>
       let typ := type_of value in
       match py_types_getitem self (KType typ) with
       | Return t => Return (translators ++ [t])
       | Raise KeyError =>
           let* t := get_translator_for_complex_type self typ value in
           Return (translators ++ [t])
       | Raise e => Raise e
       end)
    values [].

(** ** The states a translator goes through *)

(** A translator is made by [__init__] and then changed only by the encoding
    update, the two representation toggles, a lookup in the [defaultdict]
    and [_create_pack_shorts_for_index]. *)
Inductive reachable : PostgresTranslate -> Prop :=
| reach_init enc n self :
    __init__ enc n = Return self -> reachable self
| reach_encoding self e :
    reachable self -> reachable (update_client_encoding self e)
| reach_integers self :
    reachable self -> reachable (timestamps_are_integers self)
| reach_floats self :
    reachable self -> reachable (timestamps_are_floats self)
| reach_lookup self oid :
    reachable self -> reachable (snd (pg_types_getitem self oid))
| reach_shorts self index self' :
    reachable self ->
    _create_pack_shorts_for_index self index = Return self' ->
    reachable self'.

(** The translator of [PostgresTranslate()], all arguments at their
    defaults. *)
Definition blank : PostgresTranslate :=
  mk_translate None 0 ∅ ∅ ∅ [] ∅ ∅ ∅.

Definition default_translator : PostgresTranslate :=
  Eval vm_compute in
    match new (Some "utf-8"%string) with
    | Return self => self
    | Raise _ => blank
    end.

(** ** Notions for the statements *)

(** What a state must bind for the codecs to run: the pack and unpack
    functions of the integer and double formats.  No state binds
    [flatten_array]. *)
Record funcs_ok (self : PostgresTranslate) : Prop := {
  ok_i_pack : funcs self !! "i_pack"%string = Some (Pack [Fi]);
  ok_q_pack : funcs self !! "q_pack"%string = Some (Pack [Fq]);
  ok_d_pack : funcs self !! "d_pack"%string = Some (Pack [Fd]);
  ok_h_unpack : funcs self !! "h_unpack"%string = Some (Unpack [Fh]);
  ok_i_unpack : funcs self !! "i_unpack"%string = Some (Unpack [Fi]);
  ok_q_unpack : funcs self !! "q_unpack"%string = Some (Unpack [Fq]);
  ok_d_unpack : funcs self !! "d_unpack"%string = Some (Unpack [Fd]);
  ok_flatten : funcs self !! "flatten_array"%string = None
}.

(** The encoding table that [_establish_encoding_hash] installs. *)
Definition encodings_table : gmap string (option string) :=
  encodings (_establish_encoding_hash blank).

Definition well_formed (self : PostgresTranslate) : Prop :=
  funcs_ok self /\ encodings self = encodings_table.

(** The signed integer that [w] bytes at [offset] spell, when the buffer has
    them. *)
Definition int_at (w : nat) (data : bytes) (offset : Z) : result Z :=
  if len data - offset <? Z.of_nat w then Raise StructError
  else Return (to_signed w (be_unsigned (firstn w (skipn (Z.to_nat offset) data)))).

(** An offset in microseconds from the epoch names a datetime when the
    instant lies between [datetime.min] and [datetime.max]. *)
Definition representable (micros : Z) : Prop :=
  wall_us datetime_min <= wall_us epoch + micros <= wall_us datetime_max.


End Translate.

(** * startup.py *)

Module Startup.

Import Py.

(** An argument of the framer: text, bytes, or an object that is neither
    (and is truthy). *)
Inductive arg : Type :=
| AText (t : text)
| ABytes (b : bytes)
| AOther.

Definition truthy (a : option arg) : bool :=
  match a with
  | None => false
  | Some (AText []) => false
  | Some (ABytes []) => false
  | Some _ => true
  end.

(** The two conversions of [make_argument]: text is encoded as UTF-8, and
    what is not bytes after that is refused. *)
Definition as_bytes (a : arg) : result bytes :=
  match a with
  | AText t => utf8_encode t
  | ABytes b => Return b
  | AOther => Raise ProgrammingError
  end.

Definition make_argument (key value : arg) : result bytes :=
  let* key := as_bytes key in
  let* value := as_bytes value in
  Return (key ++ Translate.null_byte ++ value ++ Translate.null_byte).

Definition _construct (database : option arg) (user : arg)
    (protocol_version : option Z) (client_encoding : option string)
    (application_name : option arg) (kwargs : list (text * arg))
  : result bytes :=
  let protocol_version :=
    match protocol_version with
    | Some v => if v =? 0 then Constants.DEFAULT_PROTOCOL_VERSION else v
    | None => Constants.DEFAULT_PROTOCOL_VERSION
    end in
  let* translator := Translate.new client_encoding in
  let* message := Translate.i_pack translator protocol_version in
  let* a := make_argument (AText (u "user")) user in
  let message := message ++ a in
  let* message :=
    match database with
    | Some db =>
        let* a := make_argument (AText (u "database")) db in
        Return (message ++ a)
    | None => Return message
    end in
  let* message :=
    match application_name with
    | Some name =>
        if truthy application_name then
          let* a := make_argument (AText (u "application_name")) name in
          Return (message ++ a)
        else Return message
    | None => Return message
    end in
  let* message :=
    Translate.for_each
      (fun message kv =>
         let* a := make_argument (AText (fst kv)) (snd kv) in
         Return (message ++ a))
      kwargs message in
  let message := message ++ Translate.null_byte in
  let message_length := len message in
  let message_length := message_length + 4 in
  let* l := Translate.i_pack translator message_length in
  Return (l ++ message).

Section WithHost.

Variable host : Host.t.

Definition construct (database : option arg) (user : arg)
    (protocol_version : option Z) (client_encoding : option string)
    (application_name : option arg) (kwargs : list (text * arg))
  : result bytes :=
  let application_name :=
    match application_name with
    | None => Some (AText (Constants.APPLICATION_NAME host))
    | Some a => Some a
    end in
  _construct database user protocol_version client_encoding application_name
             kwargs.

End WithHost.

(** The module's function [message]. *)
Definition message (database : option arg) (user : arg)
    (application_name : option arg) : result bytes :=
  _construct database user None (Some "utf-8"%string) application_name [].

(** ** Notions for the statements *)

(** The key/value region of the call [construct(database="db", user="u")]
    when the application name encodes to [a]. *)
Definition key_values_default (a : bytes) : bytes :=
  u "user" ++ [0] ++ u "u" ++ [0]
  ++ u "database" ++ [0] ++ u "db" ++ [0]
  ++ u "application_name" ++ [0] ++ a ++ [0].

(** The key/value pairs of the extra parameters, one after the other. *)
Fixpoint arguments (kwargs : list (text * arg)) : result bytes :=
  match kwargs with
  | [] => Return []
  | (key, value) :: rest =>
      let* a := make_argument (AText key) value in
      let* r := arguments rest in
      Return (a ++ r)
  end.

End Startup.


(** * Properties of the translator *)

Module TranslateFacts.

Import Py Translate.

(** ** The result monad and loops *)

Lemma bind_Return {A B : Type} (c : result A) (k : A -> result B) (b : B) :
  bind c k = Return b -> exists a, c = Return a /\ k a = Return b.
Proof.
  destruct c as [a|e]; simpl; intros H; [eauto | discriminate].
Qed.

Lemma for_each_invariant {A S : Type} (P : S -> Prop)
    (body : S -> A -> result S) (l : list A) :
  (forall s a s', P s -> body s a = Return s' -> P s') ->
  forall s s', P s -> for_each body l s = Return s' -> P s'.
Proof.
  intros Hbody. induction l as [|a l IH]; simpl; intros s s' Hs H.
  - congruence.
  - apply bind_Return in H as (s1 & H1 & H2). eauto.
Qed.

(** ** The names that _create_pack_funcs binds *)

Lemma string_mul_h (index : Z) :
  string_mul index "h" = ""%string
  \/ string_mul index "h" = "h"%string
  \/ exists s, string_mul index "h" = String "h" (String "h" s).
Proof.
  unfold string_mul. destruct (Z.to_nat index) as [|[|k]]; simpl; eauto.
Qed.

Lemma create_pack_funcs_inv (self self' : PostgresTranslate) (fmt : string) :
  _create_pack_funcs self fmt = Return self' ->
  exists struc,
    Struct fmt = Return struc
    /\ self' = set_funcs self
                 (<[String.append fmt "_unpack" := Unpack struc]>
                    (<[String.append fmt "_pack" := Pack struc]> (funcs self))).
Proof.
  unfold _create_pack_funcs. intros H.
  apply bind_Return in H as (struc & H1 & H2). exists struc. split; congruence.
Qed.

Lemma funcs_ok_ext (self self' : PostgresTranslate) :
  funcs self' = funcs self -> funcs_ok self -> funcs_ok self'.
Proof. intros E []. split; rewrite E; assumption. Qed.

Lemma append_h_ne (s suffix name : string) :
  match name with
  | String _ (String c _) => c <> "h"%char
  | _ => True
  end ->
  String.append (String "h" (String "h" s)) suffix <> name.
Proof.
  destruct name as [|a [|c name]]; simpl; intros H E; try discriminate.
  injection E as _ E _. congruence.
Qed.

Lemma funcs_ok_shorts (self : PostgresTranslate) (index : Z)
    (self' : PostgresTranslate) :
  funcs_ok self ->
  _create_pack_funcs self (string_mul index "h") = Return self' ->
  funcs_ok self'.
Proof.
  intros [] H. apply create_pack_funcs_inv in H as (struc & Hs & ->).
  destruct (string_mul_h index) as [E|[E|[s E]]]; rewrite E in Hs |- *.
  - split; cbn [funcs set_funcs]; try assumption;
      rewrite !lookup_insert_ne by discriminate; assumption.
  - injection Hs as <-.
    split; cbn [funcs set_funcs]; try assumption;
      try (rewrite !lookup_insert_ne by discriminate; assumption).
    apply lookup_insert_eq.
  - split; cbn [funcs set_funcs]; try assumption;
      rewrite !lookup_insert_ne by (apply append_h_ne; discriminate);
      assumption.
Qed.

(** One round of the loop of [_create_pack_shorts], which is also the body
    of [_create_pack_shorts_for_index]. *)
Lemma funcs_ok_for_index (self : PostgresTranslate) (index : Z)
    (self' : PostgresTranslate) :
  funcs_ok self ->
  _create_pack_shorts_for_index self index = Return self' ->
  funcs_ok self'.
Proof.
  unfold _create_pack_shorts_for_index. intros Hok H.
  apply bind_Return in H as (s1 & H1 & H).
  apply bind_Return in H as (p & _ & H).
  apply bind_Return in H as (up & _ & H).
  injection H as <-.
  eapply funcs_ok_ext; [|eapply funcs_ok_shorts; eassumption].
  reflexivity.
Qed.

Lemma funcs_ok_create_pack_shorts (self self' : PostgresTranslate) :
  funcs_ok self ->
  _create_pack_shorts self = Return self' ->
  funcs_ok self'.
Proof.
  unfold _create_pack_shorts. intros Hok H.
  eapply (for_each_invariant funcs_ok) in H; [exact H| |].
  - intros s index s' Hs Hb. eapply (funcs_ok_for_index s index); [exact Hs|].
    exact Hb.
  - eapply funcs_ok_ext; [|exact Hok]. reflexivity.
Qed.

Lemma init_well_formed (enc : option string) (n : Z) (self : PostgresTranslate) :
  __init__ enc n = Return self -> well_formed self.
Proof.
  unfold __init__. intros H.
  apply bind_Return in H as (s1 & H1 & H).
  apply bind_Return in H as (s2 & H2 & H).
  apply bind_Return in H as (nl & _ & H).
  injection H as <-.
  vm_compute in H1. injection H1 as <-.
  split; [|reflexivity].
  eapply funcs_ok_ext; [|eapply funcs_ok_create_pack_shorts; [|exact H2]].
  - reflexivity.
  - split; vm_compute; reflexivity.
Qed.

Lemma reachable_well_formed (self : PostgresTranslate) :
  reachable self -> well_formed self.
Proof.
  induction 1 as [enc n self H|self e _ [IH1 IH2]|self _ [IH1 IH2]
                 |self _ [IH1 IH2]|self oid _ [IH1 IH2]
                 |self index self' _ [IH1 IH2] H].
  - eapply init_well_formed; eassumption.
  - split; [eapply funcs_ok_ext; [|exact IH1]; reflexivity | exact IH2].
  - split; [eapply funcs_ok_ext; [|exact IH1]; reflexivity | exact IH2].
  - split; [eapply funcs_ok_ext; [|exact IH1]; reflexivity | exact IH2].
  - unfold pg_types_getitem. destruct (pg_types self !! oid); simpl.
    + split; assumption.
    + split; [eapply funcs_ok_ext; [|exact IH1]; reflexivity | exact IH2].
  - split; [eapply funcs_ok_for_index; eassumption|].
    unfold _create_pack_shorts_for_index in H.
    apply bind_Return in H as (s1 & H1 & H).
    apply bind_Return in H as (p & _ & H).
    apply bind_Return in H as (up & _ & H).
    injection H as <-.
    apply create_pack_funcs_inv in H1 as (struc & _ & ->). exact IH2.
Qed.

(** ** The constructor is total *)

Lemma Struct_h (k : nat) :
  Struct (Nat.iter k (String.append "h") EmptyString) = Return (replicate k Fh).
Proof.
  induction k as [|k IH]; [reflexivity|].
  change (Nat.iter (S k) (String.append "h") EmptyString)
    with (String "h" (Nat.iter k (String.append "h") EmptyString)).
  change (Struct (String "h" ?s))
    with (let* f := Struct s in Return (Fh :: f)).
  rewrite IH. reflexivity.
Qed.

Lemma for_index_returns (self : PostgresTranslate) (index : Z) :
  exists self',
    _create_pack_shorts_for_index self index = Return self'
    /\ funcs self' = <[String.append (string_mul index "h") "_unpack" :=
                         Unpack (replicate (Z.to_nat index) Fh)]>
                       (<[String.append (string_mul index "h") "_pack" :=
                            Pack (replicate (Z.to_nat index) Fh)]> (funcs self))
    /\ pack_shorts self'
       = <[index := Pack (replicate (Z.to_nat index) Fh)]> (pack_shorts self)
    /\ unpack_shorts self'
       = <[index := Unpack (replicate (Z.to_nat index) Fh)]> (unpack_shorts self).
Proof.
  unfold _create_pack_shorts_for_index, _create_pack_funcs, string_mul.
  rewrite Struct_h. cbn [bind]. unfold getfunc.
  cbn [funcs set_funcs set_shorts pack_shorts unpack_shorts].
  set (name := Nat.iter (Z.to_nat index) (String.append "h") EmptyString).
  assert (Hne : String.append name "_unpack" <> String.append name "_pack").
  { clearbody name. induction name as [|c name IH]; cbn; [discriminate|].
    intros H. injection H as H. exact (IH H). }
  rewrite lookup_insert_ne by exact Hne. rewrite lookup_insert_eq.
  cbn [bind funcs set_funcs set_shorts pack_shorts unpack_shorts].
  rewrite lookup_insert_eq. cbn [bind].
  eexists. split; [reflexivity|].
  cbn [funcs set_funcs set_shorts pack_shorts unpack_shorts].
  repeat split.
Qed.

(** The loop of [_create_pack_shorts] over any list of indices. *)
Lemma shorts_loop (l : list Z) (self : PostgresTranslate) :
  exists self',
    for_each
      (fun self index =>
         let fmt := string_mul index "h" in
         let* self := _create_pack_funcs self fmt in
         let* p := getfunc self (String.append fmt "_pack") in
         let self := set_shorts self (<[index := p]> (pack_shorts self))
                                (unpack_shorts self) in
         let* up := getfunc self (String.append fmt "_unpack") in
         Return (set_shorts self (pack_shorts self)
                            (<[index := up]> (unpack_shorts self))))
      l self = Return self'
    /\ (forall i, is_Some (pack_shorts self' !! i)
                  <-> i ∈ l \/ is_Some (pack_shorts self !! i))
    /\ (forall i, is_Some (unpack_shorts self' !! i)
                  <-> i ∈ l \/ is_Some (unpack_shorts self !! i)).
Proof.
  revert self. induction l as [|index l IH]; intros self.
  - exists self. split; [reflexivity|].
    split; intros i; rewrite elem_of_nil; tauto.
  - destruct (for_index_returns self index) as (s1 & H1 & _ & Hp & Hu).
    destruct (IH s1) as (s2 & H2 & Hp2 & Hu2).
    exists s2. split.
    + cbn [for_each].
      change (_create_pack_shorts_for_index self index = Return s1) in H1.
      unfold _create_pack_shorts_for_index in H1. rewrite H1. cbn [bind].
      exact H2.
    + split; intros i; [rewrite Hp2, Hp|rewrite Hu2, Hu];
        rewrite elem_of_cons, lookup_insert_is_Some; 
        destruct (decide (index = i)); intuition congruence.
Qed.

Lemma create_pack_shorts_returns (self : PostgresTranslate) :
  exists self',
    _create_pack_shorts self = Return self'
    /\ forall i,
        (is_Some (pack_shorts self' !! i)
         <-> 1 <= i < max_pack_shorts_count self)
        /\ (is_Some (unpack_shorts self' !! i)
            <-> 1 <= i < max_pack_shorts_count self).
Proof.
  unfold _create_pack_shorts.
  destruct (shorts_loop (range 1 (max_pack_shorts_count self))
              (set_shorts self ∅ ∅)) as (s' & H & Hp & Hu).
  exists s'. split; [exact H|]. intros i.
  rewrite Hp, Hu. cbn [pack_shorts unpack_shorts set_shorts].
  rewrite !lookup_empty. unfold range. rewrite elem_of_seqZ.
  split; (split; [intros [?|[? ?]]; [lia|discriminate] | intros ?; left; lia]).
Qed.

(** The constructor returns for every count, and files the pack and unpack
    functions for the runs of 1 to [n - 1] short integers. *)
Lemma init_returns (enc : option string) (n : Z) :
  exists self,
    __init__ enc n = Return self
    /\ forall i,
        (is_Some (pack_shorts self !! i) <-> 1 <= i < n)
        /\ (is_Some (unpack_shorts self !! i) <-> 1 <= i < n).
Proof.
  unfold __init__.
  set (s0 := mk_translate enc n ∅ ∅ ∅ [] ∅ ∅ ∅).
  assert (H1 : exists s1, for_each _create_pack_funcs binary_formats s0
                          = Return s1 /\ funcs_ok s1
                          /\ max_pack_shorts_count s1 = n).
  { eexists. split; [vm_compute; reflexivity|].
    split; [split; vm_compute; reflexivity|reflexivity]. }
  destruct H1 as (s1 & -> & Hok & Hn). cbn [bind].
  destruct (create_pack_shorts_returns s1) as (s2 & H2 & Hdom).
  rewrite H2. cbn [bind].
  assert (Hok2 : funcs_ok s2)
    by (eapply funcs_ok_create_pack_shorts; eassumption).
  unfold i_pack, call_pack, getfunc. destruct Hok2. rewrite ok_i_pack0.
  cbn [bind]. change (pack [Fi] [SInt (-1)]) with (Return [255; 255; 255; 255]).
  cbn [bind]. eexists. split; [reflexivity|].
  intros i. rewrite <- Hn. exact (Hdom i).
Qed.

(** ** The default translator *)

Lemma init_encoding (enc : option string) :
  __init__ enc 20 = Return (set_client_encoding default_translator enc).
Proof. vm_compute. reflexivity. Qed.

Lemma init_default :
  __init__ (Some "utf-8"%string) 20 = Return default_translator.
Proof. exact (init_encoding (Some "utf-8"%string)). Qed.

Lemma default_reachable : reachable default_translator.
Proof. exact (reach_init (Some "utf-8"%string) 20 default_translator init_default). Qed.

(** ** Fixed-width integers *)

(** An unpack function of a one-field format, on a buffer read from a
    non-negative offset. *)
Lemma unpack_one_at (self : PostgresTranslate) (name : string) (c : fmt_code)
    (data : bytes) (offset : Z) :
  funcs self !! name = Some (Unpack [c]) ->
  0 <= offset ->
  call_unpack self name data offset
  = if len data - offset <? Z.of_nat (width c) then Raise StructError
    else Return [unpack1 c (firstn (width c) (skipn (Z.to_nat offset) data))].
Proof.
  intros Hf Hoff. unfold call_unpack, getfunc. rewrite Hf. cbn [bind].
  unfold unpack_from. destruct (Z.ltb_spec offset 0) as [?|_]; [lia|].
  unfold calcsize. cbn [fold_right]. rewrite Z.add_0_r.
  destruct (len data - offset <? Z.of_nat (width c)); reflexivity.
Qed.

Lemma int8_recv_at (self : PostgresTranslate) (data : bytes) (offset length : Z) :
  funcs_ok self -> 0 <= offset ->
  int8_recv self data offset length = int_at 8 data offset.
Proof.
  intros [] Hoff. unfold int8_recv, q_unpack, int_at.
  rewrite (unpack_one_at self "q_unpack" Fq) by assumption.
  change (Z.of_nat (width Fq)) with (Z.of_nat 8).
  destruct (len data - offset <? Z.of_nat 8); reflexivity.
Qed.

Lemma int4_recv_at (self : PostgresTranslate) (data : bytes) (offset length : Z) :
  funcs_ok self -> 0 <= offset ->
  int4_recv self data offset length = int_at 4 data offset.
Proof.
  intros [] Hoff. unfold int4_recv, i_unpack, int_at.
  rewrite (unpack_one_at self "i_unpack" Fi) by assumption.
  change (Z.of_nat (width Fi)) with (Z.of_nat 4).
  destruct (len data - offset <? Z.of_nat 4); reflexivity.
Qed.

Lemma int2_recv_at (self : PostgresTranslate) (data : bytes) (offset length : Z) :
  funcs_ok self -> 0 <= offset ->
  int2_recv self data offset length = int_at 2 data offset.
Proof.
  intros [] Hoff. unfold int2_recv, h_unpack, int_at.
  rewrite (unpack_one_at self "h_unpack" Fh) by assumption.
  change (Z.of_nat (width Fh)) with (Z.of_nat 2).
  destruct (len data - offset <? Z.of_nat 2); reflexivity.
Qed.

Lemma slice_from (A : Type) (data : list A) (offset n : Z) :
  0 <= offset -> 0 <= n ->
  slice data offset (offset + n)
  = firstn (Z.to_nat n) (skipn (Z.to_nat offset) data).
Proof.
  intros Ho Hl. unfold slice, slice_bound, len.
  destruct (Z.ltb_spec offset 0) as [?|_]; [lia|].
  destruct (Z.ltb_spec (offset + n) 0) as [?|_]; [lia|].
  destruct (Z_le_gt_dec offset (Z.of_nat (length data))) as [Hle|Hgt].
  - rewrite (Z.min_l offset) by lia.
    destruct (Z_le_gt_dec (offset + n) (Z.of_nat (length data)))
      as [Hle2|Hgt2].
    + rewrite Z.min_l by lia. f_equal. lia.
    + rewrite Z.min_r by lia.
      rewrite !firstn_all2; try reflexivity; rewrite length_skipn; lia.
  - rewrite !Z.min_r by lia. rewrite Z.sub_diag. cbn [Z.to_nat firstn].
    rewrite (skipn_all2 data (n:=Z.to_nat offset)) by lia.
    rewrite firstn_nil. reflexivity.
Qed.

(** ** The calendar *)

(** Ordinals and dates correspond: the check of one cycle of 400 years, of
    146097 days, extends to every ordinal. *)
Lemma check_from_spec (k : nat) (r0 : Z) :
  check_from k r0 = true ->
  forall r, r0 <= r < r0 + Z.of_nat k -> cycle_ok r = true.
Proof.
  revert r0. induction k as [|k IH]; intros r0 H r Hr; [lia|].
  cbn [check_from] in H. apply andb_true_iff in H as [H1 H2].
  destruct (Z.eq_dec r r0) as [->|Hne]; [exact H1|].
  apply (IH (r0 + 1) H2). lia.
Qed.

Lemma cycle_checked : check_from (Z.to_nat 146097) 0 = true.
Proof. vm_compute. reflexivity. Qed.

Lemma cycle_roundtrip (r : Z) :
  0 <= r < 146097 -> ymd2ord3 (ord2ymd (r + 1)) = r + 1.
Proof.
  intros Hr. apply Z.eqb_eq. change (cycle_ok r = true).
  apply (check_from_spec (Z.to_nat 146097) 0 cycle_checked). lia.
Qed.

Lemma is_leap_shift (q y : Z) : is_leap (400 * q + y) = is_leap y.
Proof.
  unfold is_leap.
  replace ((400 * q + y) mod 4) with (y mod 4)
    by (Z.div_mod_to_equations; lia).
  replace ((400 * q + y) mod 100) with (y mod 100)
    by (Z.div_mod_to_equations; lia).
  replace ((400 * q + y) mod 400) with (y mod 400)
    by (Z.div_mod_to_equations; lia).
  reflexivity.
Qed.

Lemma ymd2ord_shift (q y m d : Z) :
  ymd2ord (400 * q + y) m d = 146097 * q + ymd2ord y m d.
Proof.
  unfold ymd2ord, days_before_month, days_before_year.
  rewrite is_leap_shift. cbv zeta.
  Z.div_mod_to_equations. lia.
Qed.

Lemma ord2ymd_shift (q r : Z) :
  0 <= r < 146097 ->
  ord2ymd (146097 * q + r + 1)
  = let '(y, m, d) := ord2ymd (r + 1) in (400 * q + y, m, d).
Proof.
  intros Hr. unfold ord2ymd. cbv zeta. unfold DI400Y.
  replace (146097 * q + r + 1 - 1) with (r + q * 146097) by lia.
  replace (r + 1 - 1) with r by lia.
  rewrite Z.div_add, Z.mod_add by lia.
  rewrite (Z.div_small r 146097), (Z.mod_small r 146097) by lia.
  repeat match goal with
         | |- context [if ?c then _ else _] => destruct c
         end; f_equal; try (f_equal; lia); lia.
Qed.

Lemma ord_roundtrip (n : Z) : ymd2ord3 (ord2ymd n) = n.
Proof.
  pose proof (Z.div_mod (n - 1) 146097 ltac:(lia)) as E.
  pose proof (Z.mod_pos_bound (n - 1) 146097 ltac:(lia)) as B.
  replace n with (146097 * ((n - 1) / 146097) + (n - 1) mod 146097 + 1) at 1
    by lia.
  rewrite ord2ymd_shift by lia.
  pose proof (cycle_roundtrip _ B) as C.
  destruct (ord2ymd ((n - 1) mod 146097 + 1)) as [[y m] d].
  unfold ymd2ord3 in *. rewrite ymd2ord_shift, C. lia.
Qed.


(** ** Timestamps as integers *)

Lemma epoch_delta :
  timedelta_new (toordinal epoch)
    (hour epoch * 3600 + minute epoch * 60 + second epoch) (microsecond epoch)
  = Return (mk_timedelta 730120 0 0).
Proof. vm_compute. reflexivity. Qed.

Lemma wall_us_bounds :
  wall_us datetime_min = 0
  /\ wall_us epoch = 730119 * 86400000000
  /\ wall_us datetime_max = 3652059 * 86400000000 - 1.
Proof. vm_compute. repeat split; reflexivity. Qed.

Lemma epoch_add_overflow (micros : Z) :
  ~ representable micros ->
  (let* td := timedelta_new 0 0 micros in datetime_add epoch td)
  = Raise OverflowError.
Proof.
  unfold representable. destruct wall_us_bounds as (-> & -> & ->). intros Hn.
  unfold timedelta_new.
  destruct (999999999 <? Z.abs (0 + (0 + micros / 1000000) / 86400)) eqn:E;
    [reflexivity|].
  cbn [bind]. unfold datetime_add. rewrite epoch_delta. cbn [bind].
  unfold timedelta_add, timedelta_new.
  cbn [days seconds microseconds].
  match goal with
  | |- context [if ?c then Raise OverflowError else Return ?t] =>
      destruct c eqn:E2; [reflexivity|]
  end.
  cbn [bind days seconds microseconds].
  match goal with
  | |- (if ?c then _ else _) = _ => destruct c eqn:E3; [|reflexivity]
  end.
  exfalso. apply Hn. clear E E2.
  apply andb_true_iff in E3 as [E3 E4].
  apply Z.ltb_lt in E3. apply Z.leb_le in E4. unfold MAXORDINAL in E4.
  revert E3 E4. Z.div_mod_to_equations. lia.
Qed.

Lemma epoch_add_in_range (micros : Z) :
  representable micros ->
  exists d,
    (let* td := timedelta_new 0 0 micros in datetime_add epoch td) = Return d
    /\ wall_us d = wall_us epoch + micros
    /\ tz d = None.
Proof.
  unfold representable. destruct wall_us_bounds as (-> & E & ->). rewrite E.
  intros Hr. unfold timedelta_new.
  destruct (Z.ltb_spec 999999999 (Z.abs (0 + (0 + micros / 1000000) / 86400)))
    as [Hbig|_].
  { exfalso. revert Hbig. Z.div_mod_to_equations. lia. }
  cbn [bind]. unfold datetime_add. rewrite epoch_delta. cbn [bind].
  unfold timedelta_add, timedelta_new. cbn [days seconds microseconds].
  match goal with
  | |- context [if 999999999 <? Z.abs ?d then _ else _] =>
      set (D := d); destruct (Z.ltb_spec 999999999 (Z.abs D)) as [Hbig|_]
  end.
  { exfalso. revert Hbig. subst D. Z.div_mod_to_equations. lia. }
  cbn [bind days seconds microseconds].
  assert (HD : 0 < D <= MAXORDINAL).
  { subst D. unfold MAXORDINAL. Z.div_mod_to_equations. lia. }
  destruct (Z.ltb_spec 0 D) as [_|?]; [|lia].
  destruct (Z.leb_spec D MAXORDINAL) as [_|?]; [|lia].
  cbn [andb].
  pose proof (ord_roundtrip D) as Hrt.
  destruct (ord2ymd D) as [[y m] dd]. cbn [ymd2ord3] in Hrt.
  eexists. split; [reflexivity|]. split; [|reflexivity].
  unfold wall_us, toordinal. cbn [year month day hour minute second microsecond].
  rewrite Hrt. subst D. Z.div_mod_to_equations. lia.
Qed.

(** Inside the range the decoder returns the naive datetime that lies
    [micros] microseconds after the epoch. *)
Lemma recv_integer_in_range (micros : Z) :
  representable micros ->
  exists d,
    recv_integer epoch datetime_max datetime_min micros = Return d
    /\ wall_us d = wall_us epoch + micros
    /\ tz d = None.
Proof.
  intros Hr. destruct (epoch_add_in_range micros Hr) as (d & H & Hw & Ht).
  exists d. unfold recv_integer. rewrite H. auto.
Qed.

Lemma q_pack_ok (self : PostgresTranslate) (z : Z) :
  funcs_ok self -> q_pack self z = pack [Fq] [SInt z].
Proof.
  intros []. unfold q_pack, call_pack, getfunc. rewrite ok_q_pack0.
  reflexivity.
Qed.

Lemma recv_integer_after_int8 (self : PostgresTranslate) (data : bytes)
    (offset length micros : Z) :
  int8_recv self data offset length = Return micros ->
  timestamp_recv_integer self data offset length
  = recv_integer epoch datetime_max datetime_min micros.
Proof.
  unfold int8_recv, timestamp_recv_integer. intros H.
  destruct (q_unpack self data offset) as [vs|e]; cbn [bind] in *;
    [|discriminate].
  rewrite H. reflexivity.
Qed.

(** C1.  Under the integer representation, encoding [datetime.max] gives the
    eight bytes of 2^63 - 1 and encoding [datetime.min] those of -2^63;
    decoding a wire value that is exactly one of the two gives back
    [datetime.max] or [datetime.min]; decoding any other value whose offset
    from the epoch names no datetime raises [OverflowError]. *)
Theorem timestamp_integer_sentinels (self : PostgresTranslate) :
  reachable self ->
  timestamp_send_integer self datetime_max
    = Return (be_bytes 8 (of_signed 8 (2 ^ 63 - 1)))
  /\ timestamp_send_integer self datetime_min
    = Return (be_bytes 8 (of_signed 8 (- 2 ^ 63)))
  /\ forall (data : bytes) (offset length micros : Z),
      int8_recv self data offset length = Return micros ->
      (micros = 2 ^ 63 - 1 ->
       timestamp_recv_integer self data offset length = Return datetime_max)
      /\ (micros = - 2 ^ 63 ->
          timestamp_recv_integer self data offset length = Return datetime_min)
      /\ (micros <> 2 ^ 63 - 1 -> micros <> - 2 ^ 63 ->
          ~ representable micros ->
          timestamp_recv_integer self data offset length = Raise OverflowError).
Proof.
  intros Hr. apply reachable_well_formed in Hr as [Hok _].
  split; [|split].
  - unfold timestamp_send_integer.
    change (datetime_eq datetime_max datetime_max) with true. cbn [bind].
    rewrite q_pack_ok by assumption. vm_compute. reflexivity.
  - unfold timestamp_send_integer.
    change (datetime_eq datetime_min datetime_max) with false.
    change (datetime_eq datetime_min datetime_min) with true. cbn [bind].
    rewrite q_pack_ok by assumption. vm_compute. reflexivity.
  - intros data offset length micros H.
    rewrite (recv_integer_after_int8 _ _ _ _ _ H).
    split; [|split].
    + intros ->. vm_compute. reflexivity.
    + intros ->. vm_compute. reflexivity.
    + intros H1 H2 Hn. unfold recv_integer.
      rewrite (epoch_add_overflow micros Hn).
      apply Z.eqb_neq in H1. apply Z.eqb_neq in H2.
      change infinity_microseconds with (2 ^ 63 - 1).
      change minus_infinity_microseconds with (- 2 ^ 63).
      rewrite H1, H2. reflexivity.
Qed.

Lemma timestamp_integer_sentinels_witness :
  reachable default_translator
  /\ timestamp_send_integer default_translator datetime_max
     = Return [127; 255; 255; 255; 255; 255; 255; 255]
  /\ timestamp_send_integer default_translator datetime_min
     = Return [128; 0; 0; 0; 0; 0; 0; 0]
  /\ int8_recv default_translator [127; 255; 255; 255; 255; 255; 255; 254] 0 8
     = Return (2 ^ 63 - 2)
  /\ ~ representable (2 ^ 63 - 2)
  /\ timestamp_recv_integer default_translator
       [127; 255; 255; 255; 255; 255; 255; 254] 0 8
     = Raise OverflowError.
Proof.
  pose proof (timestamp_integer_sentinels default_translator default_reachable)
    as (Hmax & Hmin & Hrecv).
  assert (Hi : int8_recv default_translator
                 [127; 255; 255; 255; 255; 255; 255; 254] 0 8
               = Return (2 ^ 63 - 2)) by (vm_compute; reflexivity).
  assert (Hn : ~ representable (2 ^ 63 - 2)).
  { unfold representable. vm_compute. intros [_ H]. apply H. reflexivity. }
  destruct (Hrecv _ _ _ _ Hi) as (_ & _ & Hov).
  split; [exact default_reachable|].
  split; [exact Hmax|]. split; [exact Hmin|].
  split; [exact Hi|]. split; [exact Hn|].
  apply Hov; [lia | lia | exact Hn].
Defined.

(** ** Fixed-width integers and the length argument *)

(** C3, as amended.  The decoders of int2, int4 and int8 of a translator read
    exactly 2, 4 and 8 bytes at a non-negative [offset] whatever [length]
    is: they raise [struct.error] when the buffer holds fewer bytes from
    [offset] on, and return the signed big-endian value of those bytes
    otherwise.  What [bytea_recv] returns and [text_recv] decodes is the
    first [length] bytes from [offset] on, fewer where the buffer ends. *)
Theorem int_recv_reads_its_width (host : Host.t) (self : PostgresTranslate)
    (data : bytes) (offset length : Z) :
  reachable self -> 0 <= offset ->
  int2_recv self data offset length = int_at 2 data offset
  /\ int4_recv self data offset length = int_at 4 data offset
  /\ int8_recv self data offset length = int_at 8 data offset
  /\ (0 <= length ->
      bytea_recv data offset length
      = firstn (Z.to_nat length) (skipn (Z.to_nat offset) data)
      /\ text_recv host self data offset length
        = str_decode host
            (firstn (Z.to_nat length) (skipn (Z.to_nat offset) data))
            (client_encoding self)).
Proof.
  intros Hr Hoff. apply reachable_well_formed in Hr as [Hok _].
  split; [|split; [|split]].
  - apply int2_recv_at; assumption.
  - apply int4_recv_at; assumption.
  - apply int8_recv_at; assumption.
  - intros Hl. unfold text_recv, bytea_recv.
    rewrite slice_from by assumption. split; reflexivity.
Qed.

Lemma int_recv_reads_its_width_witness :
  reachable default_translator /\ 0 <= 0
  /\ int8_recv default_translator [0; 0; 0; 0; 0; 0; 0; 1] 0 4 = Return 1
  /\ int8_recv default_translator [0; 0; 0; 0; 0; 0; 1] 0 8 = Raise StructError.
Proof.
  split; [exact default_reachable|]. split; [lia|].
  destruct (int_recv_reads_its_width Host.example default_translator
              [0; 0; 0; 0; 0; 0; 0; 1] 0 4 default_reachable ltac:(lia))
    as (_ & _ & H8 & _).
  destruct (int_recv_reads_its_width Host.example default_translator
              [0; 0; 0; 0; 0; 0; 1] 0 8 default_reachable ltac:(lia))
    as (_ & _ & H8' & _).
  split; [rewrite H8|rewrite H8']; reflexivity.
Defined.

(** C3 as stated fails: [int8_recv] on eight bytes with [length] 4 reads all
    eight and returns. *)
Lemma int8_recv_reads_past_length :
  ~ (forall (self : PostgresTranslate) (data : bytes) (offset length : Z),
        reachable self -> 0 <= offset -> 0 <= length < 8 ->
        raises (int8_recv self data offset length)).
Proof.
  intros H.
  destruct (H default_translator [0; 0; 0; 0; 0; 0; 0; 1] 0 4
              default_reachable ltac:(lia) ltac:(lia)) as [e He].
  vm_compute in He. discriminate He.
Qed.

(** ** Booleans *)

(** C9.  [bool_send] returns the byte 1 for true; for false it looks up the
    unbound name [false] and raises [NameError] instead of returning the
    byte 0.  [bool_recv] is true exactly when the byte at [offset] is 1. *)
Theorem bool_send_false_is_unbound (self : PostgresTranslate) :
  bool_send self true = Return [1]
  /\ bool_send self false = Raise (NameError "false")
  /\ forall (data : bytes) (offset length : Z),
      bool_recv data offset length
      = match getitem data offset with
        | Return b => Return (b =? 1)
        | Raise e => Raise e
        end.
Proof. repeat split. Qed.

(** ** Timestamps with a time zone *)

(** C7.  Under the float representation the timestamptz decoder never
    returns: once the float decoder has produced a datetime, the unbound
    name [utc] raises [NameError].  The integer decoder does tag its result
    with UTC, and the encoder shifts an aware datetime to UTC first. *)
Theorem timestamptz_recv_float_never_returns (host : Host.t)
    (self : PostgresTranslate) (data : bytes) (offset length : Z) :
  timestamptz_recv_float host self data offset length
  = match timestamp_recv_float host self data offset length with
    | Return _ => Raise (NameError "utc")
    | Raise e => Raise e
    end
  /\ timestamptz_recv_float Host.example default_translator
       [0; 0; 0; 0; 0; 0; 0; 0] 0 8
     = Raise (NameError "utc")
  /\ timestamptz_recv_integer default_translator [0; 0; 0; 0; 0; 0; 0; 0] 0 8
     = Return epoch_tz
  /\ timestamptz_send_integer Host.example default_translator
       (mk_datetime 2000 1 1 2 0 0 0 (Some (Timezone 7200000000)))
     = Return [0; 0; 0; 0; 0; 0; 0; 0].
Proof.
  split; [|repeat split; vm_compute; reflexivity].
  unfold timestamptz_recv_float.
  destruct (timestamp_recv_float host self data offset length); reflexivity.
Qed.

(** ** The registries *)

(** C5.  A lookup in the inbound registry always gives one descriptor: the
    entry of the OID when the table has one, and the default
    [(FC_TEXT, text_recv)] when it has none; the default is then filed under
    the OID, so that a second lookup gives the same descriptor. *)
Theorem pg_types_getitem_total (self : PostgresTranslate) (oid : Z) :
  let d := fst (pg_types_getitem self oid) in
  let self' := snd (pg_types_getitem self oid) in
  (pg_types self !! oid = None -> d = (FC_TEXT, M_text_recv))
  /\ (forall d0, pg_types self !! oid = Some d0 -> d = d0)
  /\ pg_types self' !! oid = Some d
  /\ pg_types_getitem self' oid = (d, self').
Proof.
  unfold pg_types_getitem.
  destruct (pg_types self !! oid) as [d0|] eqn:E; cbn [fst snd].
  - repeat split; try congruence. rewrite E. reflexivity.
  - cbn [pg_types set_pg_types]. rewrite lookup_insert_eq.
    repeat split; congruence.
Qed.

Lemma pg_types_getitem_total_witness :
  pg_types default_translator !! 600 = None
  /\ fst (pg_types_getitem default_translator 600) = (0, M_text_recv)
  /\ pg_types default_translator !! 23 = Some (1, M_int4_recv)
  /\ fst (pg_types_getitem default_translator 23) = (1, M_int4_recv).
Proof.
  destruct (pg_types_getitem_total default_translator 600) as (H1 & _).
  destruct (pg_types_getitem_total default_translator 23) as (_ & H2 & _).
  assert (E1 : pg_types default_translator !! 600 = None) by reflexivity.
  assert (E2 : pg_types default_translator !! 23 = Some (1, M_int4_recv))
    by reflexivity.
  split; [exact E1|]. split; [exact (H1 E1)|].
  split; [exact E2|]. exact (H2 _ E2).
Defined.

(** C6.  [update_client_encoding] sets the active encoding to the codec name
    that the table gives for the server's name, and to the server's name
    itself when the table has no entry; for a name marked unsupported it
    sets [None], with which every [text_out] and every [text_recv] raises
    [TypeError]. *)
Theorem update_client_encoding_table (host : Host.t)
    (self : PostgresTranslate) (name : string) :
  reachable self ->
  let self' := update_client_encoding self name in
  match encodings_table !! name with
  | Some (Some codec) => client_encoding self' = Some codec
  | Some None =>
      client_encoding self' = None
      /\ (forall data : text, text_out host self' data = Raise TypeError)
      /\ (forall (data : bytes) (offset length : Z),
             text_recv host self' data offset length = Raise TypeError)
  | None => client_encoding self' = Some name
  end.
Proof.
  intros Hr. apply reachable_well_formed in Hr as [_ He].
  unfold update_client_encoding, dict_get, text_out, text_recv.
  cbn [client_encoding set_client_encoding]. rewrite He.
  destruct (encodings_table !! name) as [[codec|]|]; try reflexivity.
  repeat split.
Qed.

Lemma update_client_encoding_table_witness :
  reachable default_translator
  /\ client_encoding (update_client_encoding default_translator "latin1")
     = Some "iso8859-1"%string
  /\ client_encoding (update_client_encoding default_translator "euc_jp")
     = Some "euc_jp"%string
  /\ text_out Host.example
       (update_client_encoding default_translator "mule_internal") (u "a")
     = Raise TypeError
  /\ text_recv Host.example
       (update_client_encoding default_translator "mule_internal") [97] 0 1
     = Raise TypeError.
Proof.
  pose proof (update_client_encoding_table Host.example default_translator
                "latin1" default_reachable) as H1.
  pose proof (update_client_encoding_table Host.example default_translator
                "euc_jp" default_reachable) as H2.
  pose proof (update_client_encoding_table Host.example default_translator
                "mule_internal" default_reachable) as H3.
  change (encodings_table !! "latin1"%string)
    with (Some (Some "iso8859-1"%string)) in H1.
  change (encodings_table !! "euc_jp"%string)
    with (@None (option string)) in H2.
  change (encodings_table !! "mule_internal"%string)
    with (Some (@None string)) in H3.
  cbv zeta in H1, H2, H3. destruct H3 as (_ & H3 & H4).
  split; [exact default_reachable|].
  split; [exact H1|]. split; [exact H2|].
  split; [apply H3 | apply H4].
Defined.


(** C8.  With the default count of 20, [__init__] builds the pack and unpack
    functions for runs of 1 to 19 short integers: the loop is over
    [range(1, 20)], and there is no entry for a run of 20. *)
Theorem pack_shorts_stops_before_max (enc : option string) :
  exists self,
    __init__ enc 20 = Return self
    /\ dom (pack_shorts self) = list_to_set (seqZ 1 19)
    /\ dom (unpack_shorts self) = list_to_set (seqZ 1 19)
    /\ pack_shorts self !! 19 = Some (Pack (replicate 19 Fh))
    /\ pack_shorts self !! 20 = None
    /\ unpack_shorts self !! 20 = None.
Proof.
  exists (set_client_encoding default_translator enc).
  split; [apply init_encoding|].
  cbn [pack_shorts unpack_shorts set_client_encoding].
  repeat split; vm_compute; reflexivity.
Qed.






(** ** Arrays *)

(** C4.  [inspect_array] returns for no list: its first statement calls
    [self.flatten_array], an attribute that no translator has.  The loop
    that follows compares with strict bounds: -2^15 is not taken as an int2,
    -2^31 not as an int4 and -2^63 not as an int8, while 2^15 - 1 is an
    int2. *)
Theorem inspect_array_cannot_flatten (self : PostgresTranslate)
    (value : list pyval) :
  reachable self ->
  inspect_array self value = Raise (AttributeError "flatten_array")
  /\ probe_ints [PInt (- 2 ^ 15)] = Return (false, true, true)
  /\ probe_ints [PInt (2 ^ 15 - 1)] = Return (true, true, true)
  /\ probe_ints [PInt (- 2 ^ 31)] = Return (false, false, true)
  /\ probe_ints [PInt (- 2 ^ 63)] = Return (false, false, false).
Proof.
  intros Hr. apply reachable_well_formed in Hr as [[] _].
  split; [|repeat split].
  unfold inspect_array, getattr. rewrite ok_flatten0. reflexivity.
Qed.

Lemma inspect_array_cannot_flatten_witness :
  reachable default_translator
  /\ inspect_array default_translator [PInt (- 32768)]
     = Raise (AttributeError "flatten_array").
Proof.
  split; [exact default_reachable|].
  exact (proj1 (inspect_array_cannot_flatten default_translator
                  [PInt (- 32768)] default_reachable)).
Defined.

(** ** The model on examples *)

Example utc_offset_is_zero (dt : datetime) :
  utcoffset UTC = Return (Tzutc.utcoffset dt).
Proof. reflexivity. Qed.

Example epoch_ordinal :
  toordinal epoch = 730120 /\ ord2ymd 730120 = (2000, 1, 1)
  /\ epoch_seconds = 946684800.
Proof. vm_compute. repeat split. Qed.

Example leap_day : ord2ymd 730179 = (2000, 2, 29) /\ ord2ymd 730180 = (2000, 3, 1).
Proof. vm_compute. split; reflexivity. Qed.

Example send_integer_last_microsecond :
  timestamp_send_integer default_translator
    (mk_datetime 9999 12 31 23 59 59 999998 None)
  = Return (be_bytes 8 252455615999999998).
Proof. vm_compute. reflexivity. Qed.

Example recv_integer_one_second :
  timestamptz_recv_integer default_translator [0; 0; 0; 0; 0; 15; 66; 69] 0 8
  = Return (mk_datetime 2000 1 1 0 0 1 5 (Some UTC)).
Proof. vm_compute. reflexivity. Qed.

Example send_float_three_halves :
  timestamp_send_float default_translator
    (mk_datetime 2000 1 1 0 0 1 500000 None)
  = Return [63; 248; 0; 0; 0; 0; 0; 0].
Proof. vm_compute. reflexivity. Qed.

Example recv_float_three_halves :
  timestamp_recv_float Host.example default_translator
    [63; 248; 0; 0; 0; 0; 0; 0] 0 8
  = Return (mk_datetime 2000 1 1 0 0 1 500000 None).
Proof. vm_compute. reflexivity. Qed.

Example utf8_euro :
  utf8_encode [8364; 65] = Return [226; 130; 172; 65]
  /\ utf8_decode [226; 130; 172; 65] = Return [8364; 65].
Proof. vm_compute. split; reflexivity. Qed.

Example latin1_text_out :
  text_out Host.example (update_client_encoding default_translator "latin1")
    [233]
  = Return [233].
Proof. vm_compute. reflexivity. Qed.

End TranslateFacts.

(** * Properties of the startup message *)

Module StartupFacts.

Import Py Translate TranslateFacts Startup.

Lemma i_pack_ok (self : PostgresTranslate) (z : Z) :
  funcs_ok self -> - 2 ^ 31 <= z < 2 ^ 31 ->
  i_pack self z = Return (be_bytes 4 (of_signed 4 z)).
Proof.
  intros [] Hz. unfold i_pack, call_pack, getfunc. rewrite ok_i_pack0.
  cbn [bind pack pack1 width pack_int]. unfold int_fits.
  change (8 * Z.of_nat 4 - 1) with 31.
  destruct (Z.leb_spec (- 2 ^ 31) z); [|lia].
  destruct (Z.ltb_spec z (2 ^ 31)); [|lia].
  cbn [andb bind]. rewrite app_nil_r. reflexivity.
Qed.

Lemma utf8_encode_char_nonempty (c : Z) : utf8_encode_char c <> Return [].
Proof.
  unfold utf8_encode_char.
  repeat match goal with
         | |- (if ?b then _ else _) <> _ => destruct b
         end; discriminate.
Qed.

Lemma utf8_encode_nonempty (t : text) :
  t <> [] -> utf8_encode t <> Return [].
Proof.
  destruct t as [|c t]; [congruence|]. intros _. cbn [utf8_encode].
  pose proof (utf8_encode_char_nonempty c) as Hc.
  destruct (utf8_encode_char c) as [b|e]; cbn [bind]; [|discriminate].
  destruct (utf8_encode t) as [bs|e]; cbn [bind]; [|discriminate].
  destruct b; [exfalso; apply Hc; reflexivity|discriminate].
Qed.

Lemma APPLICATION_NAME_nonempty (host : Host.t) :
  Constants.APPLICATION_NAME host <> [].
Proof.
  unfold Constants.APPLICATION_NAME. intros H.
  apply app_eq_nil in H as [_ H]. discriminate H.
Qed.

Lemma for_each_arguments (kwargs : list (text * arg)) (message kv : bytes) :
  arguments kwargs = Return kv ->
  for_each
    (fun message kv =>
       let* a := make_argument (AText (fst kv)) (snd kv) in
       Return (message ++ a))
    kwargs message
  = Return (message ++ kv).
Proof.
  revert message kv. induction kwargs as [|[key value] rest IH];
    intros message kv H; cbn [arguments for_each fst snd] in *.
  - injection H as <-. rewrite app_nil_r. reflexivity.
  - destruct (make_argument (AText key) value) as [a|e]; cbn [bind] in *;
      [|discriminate].
    destruct (arguments rest) as [r|e]; cbn [bind] in H; [|discriminate].
    injection H as <-. rewrite (IH (message ++ a) r eq_refl).
    rewrite app_assoc. reflexivity.
Qed.

(** C2, as amended.  [construct(database="db", user="u")] puts the default
    application name, which is never empty, after the database: the bytes
    are the total length, itself included, on four bytes, the protocol
    version 0x00030000, the pairs user, database and application_name in
    this order, the extra parameters in the caller's order, and one zero
    byte. *)
Theorem construct_default_layout (host : Host.t) (a : bytes)
    (kwargs : list (text * arg)) (kv : bytes) :
  utf8_encode (Constants.APPLICATION_NAME host) = Return a ->
  arguments kwargs = Return kv ->
  len a + len kv + 46 < 2 ^ 31 ->
  a <> []
  /\ construct host (Some (AText (u "db"))) (AText (u "u")) None
       (Some "utf-8"%string) None kwargs
     = Return (be_bytes 4 (len a + len kv + 46) ++ be_bytes 4 196608
               ++ key_values_default a ++ kv ++ [0]).
Proof.
  intros Ha Hkv Hlen.
  assert (Hne : a <> []).
  { intros ->. revert Ha. apply utf8_encode_nonempty.
    apply APPLICATION_NAME_nonempty. }
  split; [exact Hne|].
  unfold construct, _construct, truthy.
  pose proof (APPLICATION_NAME_nonempty host) as Hn.
  destruct (Constants.APPLICATION_NAME host) as [|c name] eqn:E; [congruence|].
  unfold new. rewrite init_default. cbn [bind].
  assert (Hok : funcs_ok default_translator)
    by (apply reachable_well_formed, default_reachable).
  rewrite (i_pack_ok default_translator Constants.DEFAULT_PROTOCOL_VERSION Hok)
    by (vm_compute; split; [discriminate|reflexivity]).
  cbn [bind].
  change (make_argument (AText (u "user")) (AText (u "u")))
    with (Return (u "user" ++ [0] ++ u "u" ++ [0])).
  change (make_argument (AText (u "database")) (AText (u "db")))
    with (Return (u "database" ++ [0] ++ u "db" ++ [0])).
  cbn [bind].
  unfold make_argument at 1.
  change (as_bytes (AText (u "application_name")))
    with (Return (u "application_name")).
  unfold as_bytes at 1. rewrite Ha. cbn [bind].
  rewrite (for_each_arguments kwargs _ kv Hkv). cbn [bind].
  unfold null_byte.
  match goal with
  | |- (let* l := i_pack _ (len ?m + 4) in _) = _ =>
      assert (Hm : len m + 4 = len a + len kv + 46)
  end.
  { unfold len. rewrite !length_app.
    cbn [length u map list_ascii_of_string be_bytes]. lia. }
  rewrite Hm.
  rewrite (i_pack_ok default_translator (len a + len kv + 46) Hok)
    by (unfold len in *; lia).
  cbn [bind]. unfold of_signed. change (8 * Z.of_nat 4) with 32.
  rewrite (Z.mod_small (len a + len kv + 46)) by (unfold len in *; lia).
  unfold key_values_default. rewrite <- !app_assoc. reflexivity.
Qed.

Lemma construct_default_layout_witness :
  utf8_encode (Constants.APPLICATION_NAME Host.example)
  = Return (u "localhost_4242_python3")
  /\ arguments [(u "options", AText (u "-c"))]
     = Return (u "options" ++ [0] ++ u "-c" ++ [0])
  /\ len (u "localhost_4242_python3")
     + len (u "options" ++ [0] ++ u "-c" ++ [0]) + 46 < 2 ^ 31
  /\ construct Host.example (Some (AText (u "db"))) (AText (u "u")) None
       (Some "utf-8"%string) None [(u "options", AText (u "-c"))]
     = Return ([0; 0; 0; 79; 0; 3; 0; 0]
               ++ u "user" ++ [0] ++ u "u" ++ [0]
               ++ u "database" ++ [0] ++ u "db" ++ [0]
               ++ u "application_name" ++ [0]
               ++ u "localhost_4242_python3" ++ [0]
               ++ u "options" ++ [0] ++ u "-c" ++ [0] ++ [0]).
Proof.
  assert (H1 : utf8_encode (Constants.APPLICATION_NAME Host.example)
               = Return (u "localhost_4242_python3"))
    by (vm_compute; reflexivity).
  assert (H2 : arguments [(u "options", AText (u "-c"))]
               = Return (u "options" ++ [0] ++ u "-c" ++ [0]))
    by (vm_compute; reflexivity).
  assert (H3 : len (u "localhost_4242_python3")
               + len (u "options" ++ [0] ++ u "-c" ++ [0]) + 46 < 2 ^ 31)
    by (vm_compute; reflexivity).
  split; [exact H1|]. split; [exact H2|]. split; [exact H3|].
  rewrite (proj2 (construct_default_layout Host.example _ _ _ H1 H2 H3)).
  vm_compute. reflexivity.
Defined.

(** C2 as stated fails: on the example host the key/value region is not
    just the user and the database. *)
Lemma construct_default_has_application_name :
  ~ (forall host : Host.t,
        construct host (Some (AText (u "db"))) (AText (u "u")) None
          (Some "utf-8"%string) None []
        = Return (be_bytes 4 28 ++ be_bytes 4 196608
                  ++ (u "user" ++ [0] ++ u "u" ++ [0]
                      ++ u "database" ++ [0] ++ u "db" ++ [0])
                  ++ [0])).
Proof.
  intros H. specialize (H Host.example). vm_compute in H. discriminate H.
Qed.

(** Without an application name, as the module's [message] calls
    [_construct], the region is the user and the database. *)
Lemma message_layout :
  message (Some (AText (u "db"))) (AText (u "u")) None
  = Return (be_bytes 4 28 ++ be_bytes 4 196608
            ++ (u "user" ++ [0] ++ u "u" ++ [0]
                ++ u "database" ++ [0] ++ u "db" ++ [0])
            ++ [0]).
Proof. vm_compute. reflexivity. Qed.

End StartupFacts.
